(** * March-Madness-Stats-Analysis: the rule-evaluation layer of [analysis.py]

    A shallow embedding of [src/analysis.py]: the roster parser, the twelve
    scouting predicates, the registry [ANALYSIS_FUNCTIONS] and the driver
    [analyze_teams], followed by the properties the specification states
    about them.

    The source is Python, so the embedding comes with a small model of the
    part of the Python runtime the source relies on (module [Py]): dynamically
    typed values, exceptions with [try]/[except], truthiness, [len], slicing,
    [int()], [float()], [str.split], [dict.get] and the two regular
    expressions of the source.  Strings are Rocq strings read as sequences of
    code points below 256. *)

From Stdlib Require Import ZArith List String Ascii Bool Lia.
From Stdlib Require Import Floats.SpecFloat.
Import ListNotations.

Local Open Scope string_scope.
Local Open Scope Z_scope.
Local Set Warnings "-register-all".

(* ===================================================================== *)
(** * Python runtime model *)
(* ===================================================================== *)

Module Py.

(** The exception classes that the source names in an [except] clause or
    that the operations it calls can raise. *)
Inductive exn : Type :=
| ValueError
| KeyError
| TypeError
| AttributeError
| SyntaxError
| OverflowError.

Definition exn_eqb (a b : exn) : bool :=
  match a, b with
  | ValueError, ValueError | KeyError, KeyError | TypeError, TypeError
  | AttributeError, AttributeError | SyntaxError, SyntaxError
  | OverflowError, OverflowError => true
  | _, _ => false
  end.

(** Outcome of evaluating a Python expression or a function body. *)
Inductive result (A : Type) : Type :=
| Ok (a : A)
| Raise (e : exn).

Arguments Ok {A} a.
Arguments Raise {A} e.

Definition bind {A B : Type} (r : result A) (k : A -> result B) : result B :=
  match r with
  | Ok a => k a
  | Raise e => Raise e
  end.

(** [try: body  except (e1, ..., en): handler] *)
Definition try_except {A : Type} (body : result A) (classes : list exn)
    (handler : result A) : result A :=
  match body with
  | Ok a => Ok a
  | Raise e => if existsb (exn_eqb e) classes then handler else Raise e
  end.

Declare Scope py_scope.
Delimit Scope py_scope with py.
Notation "x <- c ;; k" := (bind c (fun x => k))
  (at level 61, c at next level, right associativity) : py_scope.
Notation "'try' b 'except' cs '=>' h" := (try_except b cs h)
  (at level 62, b at next level, cs at next level) : py_scope.

(** Python values.  A [VDict] lists the items of the dictionary in insertion
    order; the keys of a dictionary are pairwise distinct. *)
Inductive value : Type :=
| VNone
| VBool (b : bool)
| VInt (n : Z)
| VFloat (f : spec_float)
| VStr (s : string)
| VList (items : list value)
| VTuple (items : list value)
| VDict (items : list (value * value)).

Definition nan : value := VFloat S754_nan.

(** ** Characters *)

Definition code (c : ascii) : Z := Z.of_nat (nat_of_ascii c).

(** [\d] and the digits [int()] accepts (below code point 256: 0-9 only). *)
Definition is_digit (c : ascii) : bool := (48 <=? code c) && (code c <=? 57).

Definition digit_value (c : ascii) : Z := code c - 48.

(** [\s], [str.isspace] and the blanks [int()] strips: TAB..CR, FS..US,
    space, NEL and the no-break space. *)
Definition is_space (c : ascii) : bool :=
  let n := code c in
  ((9 <=? n) && (n <=? 13)) || ((28 <=? n) && (n <=? 32))
  || (n =? 133) || (n =? 160).

(** ** Strings *)

Fixpoint lstrip (s : string) : string :=
  match s with
  | String c r => if is_space c then lstrip r else s
  | EmptyString => EmptyString
  end.

Fixpoint rstrip (s : string) : string :=
  match s with
  | String c r =>
      match rstrip r with
      | EmptyString => if is_space c then EmptyString else String c EmptyString
      | r' => String c r'
      end
  | EmptyString => EmptyString
  end.

Definition strip (s : string) : string := rstrip (lstrip s).

Definition str_len (s : string) : Z := Z.of_nat (String.length s).

(** The longest prefix of digits, and what follows it. *)
Fixpoint span_digits (s : string) : string * string :=
  match s with
  | String c r =>
      if is_digit c then let (d, rest) := span_digits r in (String c d, rest)
      else (EmptyString, s)
  | EmptyString => (EmptyString, EmptyString)
  end.

(** [s.split(sep)] for a one-character separator. *)
Fixpoint split_on (sep : ascii) (s : string) : list string :=
  match s with
  | EmptyString => [EmptyString]
  | String c r =>
      if Ascii.eqb c sep then EmptyString :: split_on sep r
      else match split_on sep r with
           | p :: ps => String c p :: ps
           | [] => [String c EmptyString]
           end
  end.

(** ** [int()] *)

(** Since CPython 3.11, [int(str)] refuses more than 4300 digits. *)
Definition int_max_str_digits : Z := 4300.

(** Digits with single underscores between them: returns the number read
    and how many digits it has. *)
Fixpoint scan_digits (s : string) (acc count : Z) (after_underscore : bool)
  : option (Z * Z) :=
  match s with
  | EmptyString => if after_underscore then None else Some (acc, count)
  | String c r =>
      if is_digit c then scan_digits r (acc * 10 + digit_value c) (count + 1) false
      else if Ascii.eqb c "_" then
        if after_underscore then None else scan_digits r acc count true
      else None
  end.

Definition int_digits (s : string) : result Z :=
  match s with
  | String c r =>
      if is_digit c then
        match scan_digits r (digit_value c) 1 false with
        | Some (n, count) =>
            if int_max_str_digits <? count then Raise ValueError else Ok n
        | None => Raise ValueError
        end
      else Raise ValueError
  | EmptyString => Raise ValueError
  end.

(** [int(s)] for a string: blanks stripped on both sides, an optional sign,
    then decimal digits. *)
Definition int_of_str (s : string) : result Z :=
  match strip s with
  | String "+" r => int_digits r
  | String "-" r => bind (int_digits r) (fun n => Ok (- n))
  | t => int_digits t
  end.

(** [int(f)] for a float: truncation toward zero. *)
Definition int_of_float (f : spec_float) : result Z :=
  match f with
  | S754_nan => Raise ValueError
  | S754_infinity _ => Raise OverflowError
  | S754_zero _ => Ok 0
  | S754_finite s m e =>
      let magnitude :=
        if 0 <=? e then Z.shiftl (Zpos m) e else Z.shiftr (Zpos m) (- e) in
      Ok (if s then - magnitude else magnitude)
  end.

Definition py_int (v : value) : result Z :=
  match v with
  | VInt n => Ok n
  | VBool b => Ok (if b then 1 else 0)
  | VFloat f => int_of_float f
  | VStr s => int_of_str s
  | VNone | VList _ | VTuple _ | VDict _ => Raise TypeError
  end.

(** ** [float()] and comparison of a float with an integer *)

(** The binary64 number nearest to [m / 10^k] (ties to even). *)
Definition float_of_decimal (m k : Z) : spec_float :=
  match m with
  | Zpos _ =>
      let '(q, e, l) := SFdiv_core_binary 53 1024 m 0 (10 ^ k) 0 in
      binary_round_aux 53 1024 false q e l
  | _ => S754_zero false
  end.

Fixpoint digits_value (s : string) (acc : Z) : Z :=
  match s with
  | String c r => digits_value r (acc * 10 + digit_value c)
  | EmptyString => acc
  end.

(** [float(s)] on the plain decimal notation [digits], [digits.] and
    [digits.digits], the only one the source passes to it. *)
Definition float_of_str (s : string) : result spec_float :=
  let (whole, rest) := span_digits s in
  match whole, rest with
  | EmptyString, _ => Raise ValueError
  | _, EmptyString => Ok (float_of_decimal (digits_value whole 0) 0)
  | _, String "." r =>
      let (frac, rest') := span_digits r in
      match rest' with
      | EmptyString =>
          Ok (float_of_decimal (digits_value frac (digits_value whole 0))
                (str_len frac))
      | _ => Raise ValueError
      end
  | _, _ => Raise ValueError
  end.

(** [f > n]: Python compares a float with an integer exactly. *)
Definition float_gt_int (f : spec_float) (n : Z) : bool :=
  match f with
  | S754_nan => false
  | S754_infinity s => negb s
  | S754_zero _ => 0 >? n
  | S754_finite s m e =>
      let sm := if s then Zneg m else Zpos m in
      if 0 <=? e then Z.shiftl sm e >? n else sm >? Z.shiftl n (- e)
  end.

(** ** Truthiness, [len], slicing, iteration *)

Definition truthy (v : value) : bool :=
  match v with
  | VNone => false
  | VBool b => b
  | VInt n => negb (n =? 0)
  | VFloat (S754_zero _) => false
  | VFloat _ => true
  | VStr s => negb (String.eqb s EmptyString)
  | VList l | VTuple l => match l with [] => false | _ => true end
  | VDict d => match d with [] => false | _ => true end
  end.

Definition len (v : value) : result Z :=
  match v with
  | VStr s => Ok (str_len s)
  | VList l | VTuple l => Ok (Z.of_nat (List.length l))
  | VDict d => Ok (Z.of_nat (List.length d))
  | VNone | VBool _ | VInt _ | VFloat _ => Raise TypeError
  end.

Fixpoint str_take (n : nat) (s : string) : string :=
  match n, s with
  | S n', String c r => String c (str_take n' r)
  | _, _ => EmptyString
  end.

(** [v[:n]].  A dictionary looks the slice object up as a key (slices are
    hashable since CPython 3.12) and does not find it. *)
Definition slice_to (n : nat) (v : value) : result value :=
  match v with
  | VStr s => Ok (VStr (str_take n s))
  | VList l => Ok (VList (firstn n l))
  | VTuple l => Ok (VTuple (firstn n l))
  | VDict _ => Raise KeyError
  | VNone | VBool _ | VInt _ | VFloat _ => Raise TypeError
  end.

Fixpoint str_chars (s : string) : list value :=
  match s with
  | String c r => VStr (String c EmptyString) :: str_chars r
  | EmptyString => []
  end.

(** The elements [for x in v] runs through. *)
Definition iter (v : value) : result (list value) :=
  match v with
  | VStr s => Ok (str_chars s)
  | VList l | VTuple l => Ok l
  | VDict d => Ok (map fst d)
  | VNone | VBool _ | VInt _ | VFloat _ => Raise TypeError
  end.

(** ** Dictionaries *)

Fixpoint dict_lookup (k : string) (d : list (value * value)) : option value :=
  match d with
  | (VStr k', v) :: rest => if String.eqb k k' then Some v else dict_lookup k rest
  | _ :: rest => dict_lookup k rest
  | [] => None
  end.

(** [obj.get(key, default)] with a string key: only dictionaries have the
    method. *)
Definition get (obj : value) (key : string) (default : value) : result value :=
  match obj with
  | VDict d => Ok (match dict_lookup key d with Some v => v | None => default end)
  | _ => Raise AttributeError
  end.

(** [v in [s1, ..., sn]] for a list of strings: only an equal string is
    equal to a string. *)
Definition in_strs (v : value) (l : list string) : bool :=
  match v with
  | VStr s => existsb (String.eqb s) l
  | _ => false
  end.

(** [s.split(sep)]: a method of strings only. *)
Definition split (v : value) (sep : ascii) : result (list string) :=
  match v with
  | VStr s => Ok (split_on sep s)
  | _ => Raise AttributeError
  end.

(** ** The two regular expressions of the source *)

(** [re.match(r'(\d+)', s)]: group 1 of the match, if any. *)
Definition match_digits (s : string) : option string :=
  match span_digits s with
  | (EmptyString, _) => None
  | (d, _) => Some d
  end.

Definition starts_with (p s : string) : bool := String.prefix p s.

(** [re.match] with the pattern of [has_scoring_guard], whose parts are
    [(] [\d+] [\.?] [\d*] [)] [\s*] [Pts]: group 1 of the match, if any.
    Every quantifier is followed by something its own characters cannot
    start, so the greedy reading is the only one that can succeed. *)
Definition match_points (s : string) : option string :=
  match span_digits s with
  | (EmptyString, _) => None
  | (whole, rest) =>
      let (dot, rest1) :=
        match rest with
        | String "." r => (".", r)
        | _ => (EmptyString, rest)
        end in
      let (frac, rest2) := span_digits rest1 in
      if starts_with "Pts" (lstrip rest2) then Some (whole ++ dot ++ frac)
      else None
  end.

(** [re.match(pattern, v)] wants a string. *)
Definition re_match (matcher : string -> option string) (v : value)
  : result (option string) :=
  match v with
  | VStr s => Ok (matcher s)
  | _ => Raise TypeError
  end.

(** [a, b = map(int, parts)]: the conversions run one by one while the
    targets are filled, then a further element is asked for, and converted,
    before the unpacking is found too long. *)
Definition unpack_two_ints (parts : list string) : result (Z * Z) :=
  match parts with
  | [] => Raise ValueError
  | p1 :: rest1 =>
      bind (int_of_str p1) (fun a =>
      match rest1 with
      | [] => Raise ValueError
      | p2 :: rest2 =>
          bind (int_of_str p2) (fun b =>
          match rest2 with
          | [] => Ok (a, b)
          | p3 :: _ => bind (int_of_str p3) (fun _ => Raise ValueError)
          end)
      end)
  end.

(** ** Loops *)

(** [sum(1 for x in items if test(x))] *)
Fixpoint count_if (test : value -> result bool) (items : list value)
  : result Z :=
  match items with
  | [] => Ok 0
  | x :: rest =>
      bind (test x) (fun b =>
      bind (count_if test rest) (fun n => Ok (if b then 1 + n else n)))
  end.

(** [for x in items: acc = body(acc, x)] *)
Fixpoint for_each {S : Type} (body : S -> value -> result S)
    (items : list value) (acc : S) : result S :=
  match items with
  | [] => Ok acc
  | x :: rest => bind (body acc x) (for_each body rest)
  end.

(** A [for] loop whose body may [return]: [Some r] is the value returned
    from inside the loop, [None] means that the loop ran to its end. *)
Fixpoint for_return {R : Type} (body : value -> result (option R))
    (items : list value) : result (option R) :=
  match items with
  | [] => Ok None
  | x :: rest =>
      bind (body x) (fun r =>
      match r with
      | Some v => Ok (Some v)
      | None => for_return body rest
      end)
  end.

Fixpoint map_result {A B : Type} (f : A -> result B) (l : list A)
  : result (list B) :=
  match l with
  | [] => Ok []
  | x :: rest =>
      bind (f x) (fun y => bind (map_result f rest) (fun ys => Ok (y :: ys)))
  end.

Fixpoint fold_result {A B : Type} (f : A -> B -> result A) (l : list B)
    (a : A) : result A :=
  match l with
  | [] => Ok a
  | x :: rest => bind (f a x) (fold_result f rest)
  end.

(** ** Rows *)

(** A [pandas.Series] used as a row: index labels and their values. *)
Definition Series : Type := list (string * value).

Fixpoint lookup (k : string) (row : Series) : option value :=
  match row with
  | (k', v) :: rest => if String.eqb k k' then Some v else lookup k rest
  | [] => None
  end.

(** [row[key]] *)
Definition getitem (row : Series) (key : string) : result value :=
  match lookup key row with
  | Some v => Ok v
  | None => Raise KeyError
  end.

(** ** Tables *)

(** A [pandas.DataFrame]: the column labels and the rows, each row holding
    one cell per column. *)
Record DataFrame : Type := {
  columns : list string;
  rows : list (list value)
}.

(** The row as the [Series] that [apply(func, axis=1)] hands to [func]. *)
Definition row_series (cols : list string) (r : list value) : Series :=
  combine cols r.

Definition has_column (df : DataFrame) (name : string) : bool :=
  existsb (String.eqb name) (columns df).

Definition cell (cols : list string) (r : list value) (name : string) : value :=
  match lookup name (row_series cols r) with
  | Some v => v
  | None => nan
  end.

(** [df[[n1, ..., nk]].copy()] *)
Definition select (df : DataFrame) (names : list string) : result DataFrame :=
  if forallb (has_column df) names then
    Ok {| columns := names;
          rows := map (fun r => map (cell (columns df) r) names) (rows df) |}
  else Raise KeyError.

(** [df[name]] *)
Definition column (df : DataFrame) (name : string) : result (list value) :=
  if has_column df name then Ok (map (fun r => cell (columns df) r name) (rows df))
  else Raise KeyError.

(** [df.apply(func, axis=1)]: [func] is called on the rows in order, and the
    first exception ends the whole call. *)
Definition apply_rows (df : DataFrame) (func : Series -> result bool)
  : result (list value) :=
  map_result (fun r => bind (func (row_series (columns df) r))
                         (fun b => Ok (VBool b)))
             (rows df).

Fixpoint set_cell (cols : list string) (r : list value) (name : string)
    (v : value) : list value :=
  match cols, r with
  | c :: cols', x :: r' =>
      if String.eqb name c then v :: r' else x :: set_cell cols' r' name v
  | _, _ => r
  end.

Fixpoint zip_with {A B C : Type} (f : A -> B -> C) (l : list A) (l' : list B)
  : list C :=
  match l, l' with
  | x :: t, y :: t' => f x y :: zip_with f t t'
  | _, _ => []
  end.

(** [df[name] = values] with one value per row: an existing column is
    overwritten in place, a new one is added on the right. *)
Definition setitem (df : DataFrame) (name : string) (values : list value)
  : DataFrame :=
  if has_column df name then
    {| columns := columns df;
       rows := zip_with (fun r v => set_cell (columns df) r name v)
                 (rows df) values |}
  else
    {| columns := (columns df ++ [name])%list;
       rows := zip_with (fun r v => (r ++ [v])%list) (rows df) values |}.

(** One step of [series.map({True: 'Yes', False: 'No'})]: a value that is
    not a key of the dictionary becomes NaN. *)
Definition yes_no (v : value) : value :=
  match v with
  | VBool true => VStr "Yes"
  | VBool false => VStr "No"
  | _ => nan
  end.

End Py.

(* ===================================================================== *)
(** * analysis.py *)
(* ===================================================================== *)

Import Py.
Local Open Scope py_scope.

Section Analysis.

(** [ast.literal_eval] belongs to Python's standard library, not to the
    repository: the embedding takes it as a parameter, so that what is proved
    below holds whatever it answers. *)
Variable literal_eval : string -> result value.

(** Parse roster string into list of dictionaries *)
Definition parse_roster (roster_str : value) : result value :=
  try
    match roster_str with
    | VStr s => literal_eval s
    | _ => Ok roster_str
    end
  except [ValueError; SyntaxError] => Ok (VList []).

(** Check if team is good at scoring (top 50 in points per game) *)
Definition is_good_scoring_team (row : Series) : result bool :=
  try
    (v <- getitem row "PTS Rank" ;;
     rank <- py_int v ;;
     Ok (rank <=? 50))
  except [ValueError; KeyError] => Ok false.

(** Check if team is good at forcing turnovers (top 50 in opponent
    turnovers) *)
Definition forces_turnovers (row : Series) : result bool :=
  try
    (v <- getitem row "Opponent TOV Rank" ;;
     rank <- py_int v ;;
     Ok (rank <=? 50))
  except [ValueError; KeyError] => Ok false.

(** Check if team is good at protecting the ball: for turnovers, a higher
    rank is better (means fewer turnovers) *)
Definition protects_basketball (row : Series) : result bool :=
  try
    (v <- getitem row "TOV Rank" ;;
     rank <- py_int v ;;
     Ok (rank >=? 300))
  except [ValueError; KeyError] => Ok false.

(** Check if team makes a lot of 3s (top 50 in 3PT made per game) *)
Definition high_volume_three_point_team (row : Series) : result bool :=
  try
    (v <- getitem row "3P Rank" ;;
     rank <- py_int v ;;
     Ok (rank <=? 50))
  except [ValueError; KeyError] => Ok false.

(** Check if team is elite at offensive rebounding (top 50) *)
Definition elite_offensive_rebounding (row : Series) : result bool :=
  try
    (v <- getitem row "ORB Rank" ;;
     rank <- py_int v ;;
     Ok (rank <=? 50))
  except [ValueError; KeyError] => Ok false.

(** The common opening of the four roster predicates:
    [roster = parse_roster(row['roster'])], the test
    [not roster or len(roster) < 5] and [top_5 = roster[:5]].  [None] stands
    for the early [return False]. *)
Definition top_5_of (row : Series) : result (option (list value)) :=
  v <- getitem row "roster" ;;
  roster <- parse_roster v ;;
  too_short <- (if negb (truthy roster) then Ok true
                else n <- len roster ;; Ok (n <? 5)) ;;
  if too_short : bool then Ok None
  else
    top_5 <- slice_to 5 roster ;;
    players <- iter top_5 ;;
    Ok (Some players).

(** Check if team has more upperclassmen than lowerclassmen in top 5
    scorers *)
Definition has_experienced_core (row : Series) : result bool :=
  try
    (top_5 <- top_5_of row ;;
     match top_5 with
     | None => Ok false
     | Some top_5 =>
         upperclassmen <-
           count_if (fun player => c <- get player "class" (VStr "") ;;
                                   Ok (in_strs c ["JR"; "SR"])) top_5 ;;
         lowerclassmen <-
           count_if (fun player => c <- get player "class" (VStr "") ;;
                                   Ok (in_strs c ["FR"; "SO"])) top_5 ;;
         Ok (upperclassmen >? lowerclassmen)
     end)
  except [KeyError; AttributeError] => Ok false.

(** The body of the loop of [has_top_recruits]. *)
Definition count_recruit (top_recruits : Z) (player : value) : result Z :=
  rsci <- get player "rsci_rank" (VStr "") ;;
  m <- re_match match_digits rsci ;;
  match m with
  | Some group1 =>
      n <- int_of_str group1 ;;
      Ok (if n <=? 100 then top_recruits + 1 else top_recruits)
  | None => Ok top_recruits
  end.

(** Check if team has 2 or more top 100 recruits in first 5 players *)
Definition has_top_recruits (row : Series) : result bool :=
  try
    (top_5 <- top_5_of row ;;
     match top_5 with
     | None => Ok false
     | Some top_5 =>
         top_recruits <- for_each count_recruit top_5 0 ;;
         Ok (top_recruits >=? 2)
     end)
  except [KeyError; AttributeError] => Ok false.

(** The body of the loop of [has_scoring_guard]: [Some true] is its
    [return True]. *)
Definition scoring_guard (player : value) : result (option bool) :=
  pos <- get player "pos" (VStr "") ;;
  if in_strs pos ["G"; "PG"; "SG"] then
    summary <- get player "stats_summary" (VStr "") ;;
    if truthy summary then
      pts_match <- re_match match_points summary ;;
      match pts_match with
      | Some group1 =>
          pts <- float_of_str group1 ;;
          if float_gt_int pts 15 then Ok (Some true) else Ok None
      | None => Ok None
      end
    else Ok None
  else Ok None.

(** Check if team has a guard in first 5 players scoring > 15 ppg *)
Definition has_scoring_guard (row : Series) : result bool :=
  try
    (top_5 <- top_5_of row ;;
     match top_5 with
     | None => Ok false
     | Some top_5 =>
         returned <- for_return scoring_guard top_5 ;;
         match returned with
         | Some b => Ok b
         | None => Ok false
         end
     end)
  except [KeyError; AttributeError] => Ok false.

(** The body of the loop of [has_size]; its inner [try] turns a
    [ValueError] into [continue]. *)
Definition count_tall (tall_players : Z) (player : value) : result Z :=
  height <- get player "height" (VStr "") ;;
  if truthy height then
    try
      (parts <- split height "-" ;;
       fi <- unpack_two_ints parts ;;
       let (feet, inches) := fi : Z * Z in
       let total_inches := feet * 12 + inches in
       Ok (if total_inches >=? 78 then tall_players + 1 else tall_players))
    except [ValueError] => Ok tall_players
  else Ok tall_players.

(** Check if team has 3 or more players 6-8 or taller in first 5 players *)
Definition has_size (row : Series) : result bool :=
  try
    (top_5 <- top_5_of row ;;
     match top_5 with
     | None => Ok false
     | Some top_5 =>
         tall_players <- for_each count_tall top_5 0 ;;
         Ok (tall_players >=? 3)
     end)
  except [KeyError; AttributeError] => Ok false.

(** Check if team is good at defense (top 50 in opponent points per game) *)
Definition good_defense (row : Series) : result bool :=
  try
    (v <- getitem row "Opponent PTS Rank" ;;
     rank <- py_int v ;;
     Ok (rank <=? 50))
  except [ValueError; KeyError] => Ok false.

(** Check if team defends the three well (top 50 in opponent 3P
    percentage) *)
Definition defends_three_point (row : Series) : result bool :=
  try
    (v <- getitem row "Opponent 3P% Rank" ;;
     rank <- py_int v ;;
     Ok (rank <=? 50))
  except [ValueError; KeyError] => Ok false.

(** Check if team shoots free throws well (top 50 in FT percentage) *)
Definition good_free_throw_team (row : Series) : result bool :=
  try
    (v <- getitem row "FT% Rank" ;;
     rank <- py_int v ;;
     Ok (rank <=? 50))
  except [ValueError; KeyError] => Ok false.

(** Dictionary mapping analysis functions to their column names *)
Definition ANALYSIS_FUNCTIONS : list (string * (Series -> result bool)) :=
  [ ("Can Score", is_good_scoring_team);
    ("Forces Turnovers", forces_turnovers);
    ("Protects the Ball", protects_basketball);
    ("High Volume 3PT Team", high_volume_three_point_team);
    ("Elite Offensive Rebounding", elite_offensive_rebounding);
    ("Good Defense", good_defense);
    ("Defends Three Point", defends_three_point);
    ("Good Free Throw Team", good_free_throw_team);
    ("Experienced Core", has_experienced_core);
    ("Multiple Top Recruits", has_top_recruits);
    ("Has Scoring Guard", has_scoring_guard);
    ("Has Size", has_size) ].

(** Analyze team statistics and create a new DataFrame with yes/no answers
    to various questions *)
Definition analyze_teams (stats_df : DataFrame) : result DataFrame :=
  analysis_df <- select stats_df ["year"; "team"] ;;
  analysis_df <-
    fold_result
      (fun analysis_df (entry : string * (Series -> result bool)) =>
         let (col_name, func) := entry in
         answers <- apply_rows stats_df func ;;
         Ok (setitem analysis_df col_name answers))
      ANALYSIS_FUNCTIONS analysis_df ;;
  fold_result
    (fun analysis_df col =>
       answers <- column analysis_df col ;;
       Ok (setitem analysis_df col (map yes_no answers)))
    (map fst ANALYSIS_FUNCTIONS) analysis_df.

End Analysis.

(* ===================================================================== *)
(** * A reader for roster literals *)
(* ===================================================================== *)

(** The collector writes a roster as the [repr] of a list of dictionaries
    from strings to strings.  [Ast.literal_eval] reads that notation the way
    [ast.literal_eval] does: lists and dictionaries with string keys, nested
    at will, of quoted strings (either quote, with the escapes for backslash,
    quotes, newline, tab and return), decimal integers with an optional
    sign, [None], [True] and [False].  What lies outside this fragment (floats,
    tuples, sets, bytes, other keys, other escapes) is refused as a syntax
    error; the concrete runs below stay inside the fragment. *)
Module Ast.

Definition is_blank (c : ascii) : bool :=
  Ascii.eqb c " " || (code c =? 9).

Fixpoint skip_blanks (s : string) : string :=
  match s with
  | String c r => if is_blank c then skip_blanks r else s
  | EmptyString => EmptyString
  end.

Definition is_name_char (c : ascii) : bool :=
  let n := code c in
  ((65 <=? n) && (n <=? 90)) || ((97 <=? n) && (n <=? 122))
  || (n =? 95) || is_digit c.

Fixpoint span_name (s : string) : string * string :=
  match s with
  | String c r =>
      if is_name_char c then let (d, rest) := span_name r in (String c d, rest)
      else (EmptyString, s)
  | EmptyString => (EmptyString, EmptyString)
  end.

(** The body of a string literal opened by [quote]: its value, and what
    follows the closing quote. *)
Fixpoint string_body (quote : ascii) (s : string) : option (string * string) :=
  match s with
  | EmptyString => None
  | String "\" (String e r) =>
      let unescaped :=
        if Ascii.eqb e "\" then Some "\"%char
        else if Ascii.eqb e "'" then Some "'"%char
        else if code e =? 34 then Some e
        else if Ascii.eqb e "n" then Some (ascii_of_nat 10)
        else if Ascii.eqb e "t" then Some (ascii_of_nat 9)
        else if Ascii.eqb e "r" then Some (ascii_of_nat 13)
        else None in
      match unescaped, string_body quote r with
      | Some c, Some (body, rest) => Some (String c body, rest)
      | _, _ => None
      end
  | String c r =>
      if Ascii.eqb c quote then Some (EmptyString, r)
      else if code c =? 10 then None
      else match string_body quote r with
           | Some (body, rest) => Some (String c body, rest)
           | None => None
           end
  end.

(** A decimal integer literal: no leading zero before another digit. *)
Definition int_literal (s : string) : result (Z * string) :=
  let (d, rest) := span_digits s in
  match d with
  | EmptyString => Raise SyntaxError
  | String "0" (String _ _) =>
      if digits_value d 0 =? 0 then Ok (0, rest) else Raise SyntaxError
  | _ => Ok (digits_value d 0, rest)
  end.

(** [d[k] = v]: a key already present keeps its place and takes the new
    value. *)
Fixpoint dict_set (k : string) (v : value) (d : list (value * value))
  : list (value * value) :=
  match d with
  | [] => [(VStr k, v)]
  | (VStr k', v') :: rest =>
      if String.eqb k k' then (VStr k, v) :: rest
      else (VStr k', v') :: dict_set k v rest
  | item :: rest => item :: dict_set k v rest
  end.

Definition is_quote (c : ascii) : bool := Ascii.eqb c "'" || (code c =? 34).

Fixpoint parse_value (fuel : nat) (s : string) {struct fuel}
  : result (value * string) :=
  match fuel with
  | O => Raise SyntaxError
  | S fuel' =>
      match skip_blanks s with
      | EmptyString => Raise SyntaxError
      | String c r =>
          if Ascii.eqb c "[" then
            match skip_blanks r with
            | String "]" r' => Ok (VList [], r')
            | _ => vr <- parse_items fuel' r ;;
                   Ok (VList (fst vr), snd vr)
            end
          else if Ascii.eqb c "{" then
            match skip_blanks r with
            | String "}" r' => Ok (VDict [], r')
            | _ => vr <- parse_pairs fuel' r [] ;;
                   Ok (VDict (fst vr), snd vr)
            end
          else if is_quote c then
            match string_body c r with
            | Some (body, rest) => Ok (VStr body, rest)
            | None => Raise SyntaxError
            end
          else if is_digit c then
            nr <- int_literal (String c r) ;; Ok (VInt (fst nr), snd nr)
          else if Ascii.eqb c "-" then
            nr <- int_literal (skip_blanks r) ;; Ok (VInt (- fst nr), snd nr)
          else if Ascii.eqb c "+" then
            nr <- int_literal (skip_blanks r) ;; Ok (VInt (fst nr), snd nr)
          else
            match span_name (String c r) with
            | (EmptyString, _) => Raise SyntaxError
            | (name, rest) =>
                if String.eqb name "None" then Ok (VNone, rest)
                else if String.eqb name "True" then Ok (VBool true, rest)
                else if String.eqb name "False" then Ok (VBool false, rest)
                else Raise ValueError
            end
      end
  end

with parse_items (fuel : nat) (s : string) {struct fuel}
  : result (list value * string) :=
  match fuel with
  | O => Raise SyntaxError
  | S fuel' =>
      vr <- parse_value fuel' s ;;
      match skip_blanks (snd vr) with
      | String "]" r => Ok ([fst vr], r)
      | String "," r =>
          match skip_blanks r with
          | String "]" r' => Ok ([fst vr], r')
          | _ => lr <- parse_items fuel' r ;; Ok (fst vr :: fst lr, snd lr)
          end
      | _ => Raise SyntaxError
      end
  end

with parse_pairs (fuel : nat) (s : string) (d : list (value * value))
    {struct fuel} : result (list (value * value) * string) :=
  match fuel with
  | O => Raise SyntaxError
  | S fuel' =>
      match skip_blanks s with
      | String q r =>
          if is_quote q then
            match string_body q r with
            | Some (key, rest) =>
                match skip_blanks rest with
                | String ":" r1 =>
                    vr <- parse_value fuel' r1 ;;
                    let d' := dict_set key (fst vr) d in
                    match skip_blanks (snd vr) with
                    | String "}" r2 => Ok (d', r2)
                    | String "," r2 =>
                        match skip_blanks r2 with
                        | String "}" r3 => Ok (d', r3)
                        | _ => parse_pairs fuel' r2 d'
                        end
                    | _ => Raise SyntaxError
                    end
                | _ => Raise SyntaxError
                end
            | None => Raise SyntaxError
            end
          else Raise SyntaxError
      | EmptyString => Raise SyntaxError
      end
  end.

Definition literal_eval (s : string) : result value :=
  vr <- parse_value (2 * String.length s + 2) s ;;
  match skip_blanks (snd vr) with
  | EmptyString => Ok (fst vr)
  | _ => Raise SyntaxError
  end.

End Ast.

(* ===================================================================== *)
(** * Vocabulary of the specification *)
(* ===================================================================== *)

(** The seven predicates that ask for a rank of at most 50, each with the
    rank field it reads. *)
Definition top_50_predicates : list (string * (Series -> result bool)) :=
  [ ("PTS Rank", is_good_scoring_team);
    ("Opponent TOV Rank", forces_turnovers);
    ("3P Rank", high_volume_three_point_team);
    ("ORB Rank", elite_offensive_rebounding);
    ("Opponent PTS Rank", good_defense);
    ("Opponent 3P% Rank", defends_three_point);
    ("FT% Rank", good_free_throw_team) ].

(** The four predicates that read the roster. *)
Definition roster_predicates (literal_eval : string -> result value)
  : list (Series -> result bool) :=
  [ has_experienced_core literal_eval;
    has_top_recruits literal_eval;
    has_scoring_guard literal_eval;
    has_size literal_eval ].

(** The roster of a row once parsed: [parse_roster(row['roster'])]. *)
Definition parsed_roster (literal_eval : string -> result value)
    (row : Series) : result value :=
  v <- getitem row "roster" ;; parse_roster literal_eval v.


Definition is_str (v : value) : bool :=
  match v with
  | VStr _ => true
  | _ => false
  end.

(** The entry is a dictionary in which the field, if present, is a text. *)
Definition has_text (key : string) (p : value) : bool :=
  match get p key (VStr "") with
  | Ok (VStr _) => true
  | _ => false
  end.

(** A player record of the data model: a dictionary whose values are all
    strings. *)
Definition is_record (v : value) : bool :=
  match v with
  | VDict d => forallb (fun item => is_str (snd item)) d
  | _ => false
  end.

(** A list of dictionary-like records, the shape of a roster. *)
Definition is_record_list (v : value) : bool :=
  match v with
  | VList l => forallb (fun p => match p with VDict _ => true | _ => false end) l
  | _ => false
  end.

(** The text of a field of an entry, when the entry is a dictionary and the
    field is a string; an absent field reads as the empty string. *)
Definition field_text (p : value) (key : string) : option string :=
  match get p key (VStr "") with
  | Ok (VStr s) => Some s
  | _ => None
  end.



(** The points figure at the head of a stats summary. *)
Definition points_figure (summary : string) : option spec_float :=
  match match_points summary with
  | Some figure =>
      match float_of_str figure with
      | Ok f => Some f
      | Raise _ => None
      end
  | None => None
  end.

(** The entry's position is one of the three guard codes. *)
Definition has_guard_position (p : value) : bool :=
  match field_text p "pos" with
  | Some pos => existsb (String.eqb pos) ["G"; "PG"; "SG"]
  | None => false
  end.

(** The entry is a guard whose points figure is above 15. *)
Definition is_scoring_guard (p : value) : bool :=
  has_guard_position p &&
  match field_text p "stats_summary" with
  | Some summary =>
      match points_figure summary with
      | Some f => float_gt_int f 15
      | None => false
      end
  | None => false
  end.

Definition count_true (test : value -> bool) (l : list value) : Z :=
  Z.of_nat (List.length (filter test l)).

Fixpoint all_digits (s : string) : bool :=
  match s with
  | String c r => is_digit c && all_digits r
  | EmptyString => true
  end.

(** The shape shared by the eight rank predicates. *)
Definition rank_check (field : string) (test : Z -> bool) (row : Series)
  : result bool :=
  try
    (v <- getitem row field ;;
     rank <- py_int v ;;
     Ok (test rank))
  except [ValueError; KeyError] => Ok false.

(** The shape shared by the four roster predicates. *)
Definition roster_check (literal_eval : string -> result value)
    (body : list value -> result bool) (row : Series) : result bool :=
  try
    (top_5 <- top_5_of literal_eval row ;;
     match top_5 with
     | None => Ok false
     | Some top_5 => body top_5
     end)
  except [KeyError; AttributeError] => Ok false.

(** The two key cells of an input row. *)
Definition carried (cols : list string) (r : list value) : list value :=
  [cell cols r "year"; cell cols r "team"].

(** The output table has one row per input row, in the same order, and
    each starts with the year and the team of its input row. *)
Definition keeps_rows (stats_df analysis_df : DataFrame) : Prop :=
  (exists others, columns analysis_df = "year" :: "team" :: others)
  /\ Forall2 (fun out_row in_row =>
                exists answers,
                  out_row = (carried (columns stats_df) in_row ++ answers)%list)
             (rows analysis_df) (rows stats_df).

(** ** Sample data *)

(** A roster as the collector writes it: five players, the first a point
    guard. *)
Definition sample_roster : string :=
  "[{'player': 'A', 'class': 'SR', 'pos': 'PG', 'height': '6-8', 'rsci_rank': '37 (2021)', 'stats_summary': '16.2 Pts, 3 Ast'}, "
  ++ "{'player': 'B', 'class': 'SR', 'pos': 'F', 'height': '6-9', 'rsci_rank': '82', 'stats_summary': '12.0 Pts'}, "
  ++ "{'player': 'C', 'class': 'FR', 'pos': 'C', 'height': '7-0', 'rsci_rank': '150', 'stats_summary': '9.1 Pts'}, "
  ++ "{'player': 'D', 'class': 'FR', 'pos': 'G/F', 'height': '5-9', 'rsci_rank': '', 'stats_summary': '30.0 Pts'}, "
  ++ "{'player': 'E', 'class': 'JR', 'pos': 'F', 'height': 'N/A', 'rsci_rank': '5', 'stats_summary': ''}]".

Definition sample_players : list value :=
  match Ast.literal_eval sample_roster with
  | Ok (VList l) => l
  | _ => []
  end.

Definition sample_row : Series :=
  [ ("year", VInt 2024); ("team", VStr "Duke"); ("PTS Rank", VStr "50");
    ("TOV Rank", VStr "300"); ("roster", VStr sample_roster) ].

(** A player built from a position and a stats summary. *)
Definition player_with (pos summary : string) : value :=
  VDict [ (VStr "pos", VStr pos); (VStr "stats_summary", VStr summary) ].

(** A player of a given height. *)
Definition player_of_height (height : string) : value :=
  VDict [ (VStr "height", VStr height) ].

(** A player of a given eligibility class. *)
Definition player_of_class (class : string) : value :=
  VDict [ (VStr "class", VStr class) ].

(** A player with a given recruit ranking. *)
Definition player_of_rsci (rsci_rank : string) : value :=
  VDict [ (VStr "rsci_rank", VStr rsci_rank) ].

Definition roster_row (players : list value) : Series :=
  [ ("year", VInt 2024); ("team", VStr "Duke"); ("roster", VList players) ].

(* ===================================================================== *)
(** * create_data.py *)
(* ===================================================================== *)

(** The collector's network and HTML layers ([requests], [BeautifulSoup]) are
    outside the embedding.  What is embedded is the pure text cleaning of the
    rank cells and the assembly of the table from the scraped records. *)

(** The four alternatives of the pattern [(st|nd|rd|th)]. *)
Definition is_ordinal_suffix (a b : ascii) : bool :=
  (Ascii.eqb a "s" && Ascii.eqb b "t")
  || (Ascii.eqb a "n" && Ascii.eqb b "d")
  || (Ascii.eqb a "r" && Ascii.eqb b "d")
  || (Ascii.eqb a "t" && Ascii.eqb b "h").

(** [re.sub] with the pattern of [clean_rank_text], a two-letter suffix
    behind a look-behind for one digit, and the empty replacement: the text
    is scanned from the left, [after_digit] tells whether the character just
    before the current position is a digit, and the scan resumes behind each
    removed suffix. *)
Fixpoint remove_ordinals (after_digit : bool) (s : string) : string :=
  match s with
  | String a (String b r' as r) =>
      if after_digit && is_ordinal_suffix a b then remove_ordinals false r'
      else String a (remove_ordinals (is_digit a) r)
  | String a EmptyString => String a EmptyString
  | EmptyString => EmptyString
  end.

(** Remove ranking suffixes (st, nd, rd, th) from a rank number *)
Definition clean_rank_text (rank_text : string) : string :=
  remove_ordinals false (strip rank_text).

(** A scraped team: a Python dictionary with string keys, as the list of
    its items in insertion order. *)
Definition record : Type := list (string * value).

Definition has_key (key : string) (d : record) : bool :=
  existsb (fun item => String.eqb key (fst item)) d.

(** [range(lo, lo + n)] *)
Fixpoint range_from (lo : Z) (n : nat) : list Z :=
  match n with
  | O => []
  | S n' => lo :: range_from (lo + 1) n'
  end.

(** [range(lo, hi)] *)
Definition range (lo hi : Z) : list Z := range_from lo (Z.to_nat (hi - lo)).

(** The keys of the records, each once, in the order of their first
    appearance: the columns [pandas.DataFrame] gives a list of
    dictionaries. *)
Fixpoint add_keys (seen : list string) (d : record) : list string :=
  match d with
  | [] => seen
  | (k, _) :: rest =>
      if existsb (String.eqb k) seen then add_keys seen rest
      else add_keys (seen ++ [k])%list rest
  end.

Definition union_keys (records : list record) : list string :=
  fold_left add_keys records [].

(** The cell of a record in a column: its value under that key, NaN when
    it has none. *)
Definition record_cell (d : record) (col : string) : value :=
  match lookup col d with
  | Some v => v
  | None => nan
  end.

(** [pandas.DataFrame(records)]: one row per record. *)
Definition from_records (records : list record) : DataFrame :=
  let cols := union_keys records in
  {| columns := cols;
     rows := map (fun d => map (record_cell d) cols) records |}.

(** The columns [get_recent_final_four_teams] asks for: year and team
    first, then the other columns in their order. *)
Definition year_team_first (cols : list string) : list string :=
  (["year"; "team"]
   ++ filter (fun col => negb (existsb (String.eqb col) ["year"; "team"]))
        cols)%list.

Section Collector.

(** [get_final_four_teams] fetches and reads web pages; the embedding takes
    it as a parameter: the teams it returns for a season, or the exception
    that escapes it. *)
Variable get_final_four_teams : Z -> result (list record).

(** Get Final Four teams for the seasons before [current_year].  The
    progress messages and the CSV file written on the way are left out. *)
Definition get_recent_final_four_teams : result DataFrame :=
  let current_year := 2025 in
  all_teams <-
    fold_result
      (fun all_teams year =>
         teams <- get_final_four_teams year ;;
         Ok (all_teams ++ teams)%list)
      (range (current_year - 15) current_year) [] ;;
  let df := from_records all_teams in
  let cols := year_team_first (columns df) in
  select df cols.

End Collector.

(* ===================================================================== *)
(** * Further vocabulary *)
(* ===================================================================== *)

Definition is_dict (v : value) : bool :=
  match v with
  | VDict _ => true
  | _ => false
  end.

(** The entry's class is one of the given codes. *)
Definition has_class (codes : list string) (p : value) : bool :=
  match get p "class" (VStr "") with
  | Ok c => in_strs c codes
  | Raise _ => false
  end.

(** The entry has a text of at most 4300 characters under the key. *)
Definition has_short_text (key : string) (p : value) : bool :=
  match field_text p key with
  | Some t => str_len t <=? int_max_str_digits
  | None => false
  end.

(** The recruit ranking of the entry starts with a number of at most 100. *)
Definition is_top_100_recruit (p : value) : bool :=
  match field_text p "rsci_rank" with
  | Some t =>
      match match_digits t with
      | Some figure => digits_value figure 0 <=? 100
      | None => false
      end
  | None => false
  end.

(** The digits of a text, in order. *)
Fixpoint digits_of (s : string) : string :=
  match s with
  | String c r => if is_digit c then String c (digits_of r) else digits_of r
  | EmptyString => EmptyString
  end.

(** The cell [apply] holds for an outcome of a predicate. *)
Definition raw_answer (r : result bool) : value :=
  match r with
  | Ok b => VBool b
  | Raise _ => nan
  end.

(** The cell the driver ends with: Yes for true, No for false. *)
Definition answer_text (r : result bool) : value := yes_no (raw_answer r).

(** The output row of an input row: the two key cells, then one answer per
    registered predicate, in the order of the registry. *)
Definition analysis_row (literal_eval : string -> result value)
    (cols : list string) (r : list value) : list value :=
  (carried cols r
   ++ map (fun entry : string * (Series -> result bool) =>
             answer_text (snd entry (row_series cols r)))
        (ANALYSIS_FUNCTIONS literal_eval))%list.

(** No registered predicate raises on any row of the table. *)
Definition no_predicate_raises (literal_eval : string -> result value)
    (stats_df : DataFrame) : Prop :=
  Forall (fun entry : string * (Series -> result bool) =>
            Forall (fun r => exists b,
                      snd entry (row_series (columns stats_df) r) = Ok b)
                   (rows stats_df))
         (ANALYSIS_FUNCTIONS literal_eval).

(** ** More sample data *)

(** A table of two teams; the second has a numeric rank, an empty rank cell
    and an empty roster. *)
Definition sample_table : DataFrame :=
  {| columns := map fst sample_row;
     rows := [ map snd sample_row;
               [VInt 2023; VStr "UNC"; VInt 51; nan; VStr "[]"] ] |}.

Definition sample_analysis : DataFrame :=
  match analyze_teams Ast.literal_eval sample_table with
  | Ok analysis_df => analysis_df
  | Raise _ => {| columns := []; rows := [] |}
  end.

(** Two teams scraped for 2024, none for the other seasons. *)
Definition sample_teams (year : Z) : list record :=
  if year =? 2024 then
    [ [("year", VInt 2024); ("team", VStr "Duke"); ("PTS Rank", VStr "12")];
      [("year", VInt 2024); ("team", VStr "UNC"); ("roster", VList [])] ]
  else [].

(** Rosters of five: by class, by recruit ranking, entries of any kind,
    and four tall players followed by a bare text. *)
Definition class_players : list value :=
  map player_of_class ["SR"; "SO"; "JR"; ""; "FR"].

Definition rsci_players : list value :=
  map player_of_rsci ["37 (2021)"; "101"; "x5"; ""; "100"].



(* ===================================================================== *)
(** * Properties *)
(* ===================================================================== *)

(** ** Exceptions *)

Lemma bind_assoc {A B C : Type} (r : result A) (f : A -> result B)
    (g : B -> result C) :
  bind (bind r f) g = bind r (fun a => bind (f a) g).
Proof. destruct r; reflexivity. Qed.

Lemma bind_ok_inv {A B : Type} (r : result A) (k : A -> result B) (b : B) :
  bind r k = Ok b -> exists a, r = Ok a /\ k a = Ok b.
Proof. destruct r as [a|e]; simpl; intros H; [eauto | discriminate]. Qed.


(** ** The rank predicates *)



Lemma int_digits_cases r :
  int_digits r = Raise ValueError \/ exists n, int_digits r = Ok n.
Proof.
  unfold int_digits. destruct r as [|c r]; [now left|].
  destruct (is_digit c); [|now left].
  destruct (scan_digits _ _ _ _) as [[n k]|]; [|now left].
  destruct (_ <? _); [now left | right; eauto].
Qed.

(** [int()] of a string either succeeds or raises [ValueError]. *)
Lemma int_of_str_cases s :
  int_of_str s = Raise ValueError \/ exists n, int_of_str s = Ok n.
Proof.
  unfold int_of_str. destruct (strip s) as [|c r]; [apply int_digits_cases|].
  destruct c as [[] [] [] [] [] [] [] []]; try apply int_digits_cases;
    destruct (int_digits_cases r) as [-> | [n ->]]; simpl; eauto.
Qed.

Lemma rank_check_str field test row s :
  lookup field row = Some (VStr s) ->
  rank_check field test row =
  Ok (match int_of_str s with Ok n => test n | Raise _ => false end).
Proof.
  unfold rank_check, getitem. intros ->. simpl.
  destruct (int_of_str_cases s) as [-> | [n ->]]; reflexivity.
Qed.

Lemma in_top_50 field pred :
  In (field, pred) top_50_predicates ->
  pred = rank_check field (fun rank => rank <=? 50).
Proof.
  unfold top_50_predicates. simpl.
  intros H; repeat (destruct H as [H|H]; [inversion H; reflexivity|]);
    contradiction.
Qed.




(** ** The roster predicates *)

Section RosterProperties.

Variable literal_eval : string -> result value.

Lemma in_roster_predicates pred :
  In pred (roster_predicates literal_eval) ->
  exists body, pred = roster_check literal_eval body.
Proof.
  unfold roster_predicates. simpl.
  intros [<-|[<-|[<-|[<-|[]]]]]; eexists; reflexivity.
Qed.

Lemma top_5_of_parsed row roster :
  parsed_roster literal_eval row = Ok roster ->
  top_5_of literal_eval row =
  (too_short <- (if negb (truthy roster) then Ok true
                 else n <- len roster ;; Ok (n <? 5)) ;;
   if too_short : bool then Ok None
   else top_5 <- slice_to 5 roster ;;
        players <- iter top_5 ;;
        Ok (Some players)).
Proof.
  unfold parsed_roster, top_5_of. intros H.
  destruct (getitem row "roster") as [v|e]; simpl in *; [|discriminate].
  now rewrite H.
Qed.

Lemma top_5_of_short row roster n :
  parsed_roster literal_eval row = Ok roster ->
  len roster = Ok n -> n < 5 ->
  top_5_of literal_eval row = Ok None.
Proof.
  intros Hp Hl Hn. rewrite (top_5_of_parsed _ _ Hp), Hl.
  destruct (truthy roster); simpl; [|reflexivity].
  apply Z.ltb_lt in Hn. now rewrite Hn.
Qed.

Lemma top_5_of_list row l :
  parsed_roster literal_eval row = Ok (VList l) ->
  top_5_of literal_eval row =
  Ok (if Z.of_nat (List.length l) <? 5 then None else Some (firstn 5 l)).
Proof.
  intros Hp. rewrite (top_5_of_parsed _ _ Hp).
  destruct l as [|x l]; [reflexivity|].
  cbn [truthy negb len bind].
  destruct (Z.of_nat (List.length (x :: l)) <? 5); reflexivity.
Qed.



Lemma firstn_same_shortness (l1 l2 : list value) :
  firstn 5 l1 = firstn 5 l2 ->
  (Z.of_nat (List.length l1) <? 5) = (Z.of_nat (List.length l2) <? 5).
Proof.
  intros H. apply (f_equal (@List.length value)) in H.
  rewrite !length_firstn in H.
  destruct (Z.ltb_spec (Z.of_nat (List.length l1)) 5),
           (Z.ltb_spec (Z.of_nat (List.length l2)) 5); try reflexivity; lia.
Qed.

(** C6.  Each of the four roster predicates answers false whenever the
    parsed roster has fewer than 5 entries, whatever the entries are, and
    its outcome is a function of the first 5 entries alone: two rosters
    that agree on their first 5 entries get the same outcome. *)
Theorem roster_predicates_depend_on_first_five :
  forall pred, In pred (roster_predicates literal_eval) ->
    (forall (row : Series) (roster : value) (n : Z),
        parsed_roster literal_eval row = Ok roster ->
        len roster = Ok n -> n < 5 ->
        pred row = Ok false)
    /\ (forall (row1 row2 : Series) (l1 l2 : list value),
        parsed_roster literal_eval row1 = Ok (VList l1) ->
        parsed_roster literal_eval row2 = Ok (VList l2) ->
        firstn 5 l1 = firstn 5 l2 ->
        pred row1 = pred row2).
Proof.
  intros pred Hin. destruct (in_roster_predicates _ Hin) as [body ->].
  split.
  - intros row roster n Hp Hl Hn. unfold roster_check.
    now rewrite (top_5_of_short _ _ _ Hp Hl Hn).
  - intros row1 row2 l1 l2 H1 H2 Heq. unfold roster_check.
    rewrite (top_5_of_list _ _ H1), (top_5_of_list _ _ H2).
    now rewrite (firstn_same_shortness _ _ Heq), Heq.
Qed.

(** *** Records *)

Lemma dict_lookup_str key d v :
  forallb (fun item : value * value => is_str (snd item)) d = true ->
  dict_lookup key d = Some v -> exists s, v = VStr s.
Proof.
  induction d as [|[k x] d IH]; simpl; [discriminate|].
  intros H. apply andb_prop in H. destruct H as [Hx Hd].
  assert (Hhere : Some x = Some v -> exists s, v = VStr s).
  { intros [= <-]. destruct x; try discriminate. eauto. }
  destruct k; auto. destruct (String.eqb key s); auto.
Qed.


(** Every field of a record of the data model reads as a text. *)
Lemma record_has_text key p : is_record p = true -> has_text key p = true.
Proof.
  destruct p; try discriminate. simpl. intros H. unfold has_text. simpl.
  destruct (dict_lookup key items) as [v|] eqn:E; [|reflexivity].
  now destruct (dict_lookup_str _ _ _ H E) as [s ->].
Qed.

(** *** Has Size *)



Lemma count_true_cons test (p : value) l :
  count_true test (p :: l) = (if test p then 1 else 0) + count_true test l.
Proof.
  unfold count_true. simpl. destruct (test p); simpl List.length; lia.
Qed.


Lemma not_short (l : list value) :
  (5 <= List.length l)%nat -> (Z.of_nat (List.length l) <? 5) = false.
Proof. intros H. apply Z.ltb_ge. lia. Qed.


(** *** Has Scoring Guard *)

Lemma span_digits_spec s :
  all_digits (fst (span_digits s)) = true
  /\ span_digits (snd (span_digits s)) = (EmptyString, snd (span_digits s))
  /\ s = fst (span_digits s) ++ snd (span_digits s).
Proof.
  induction s as [|c r IH]; simpl; [auto|].
  destruct (is_digit c) eqn:E.
  - destruct (span_digits r) as [d rest]. simpl in *.
    rewrite E. destruct IH as (H1 & H2 & H3). repeat split; auto.
    now rewrite <- H3.
  - simpl. rewrite E. auto.
Qed.


Lemma append_empty s : s ++ "" = s.
Proof. induction s as [|c s IH]; simpl; congruence. Qed.









End RosterProperties.

(** ** The roster parser *)

(** C2, as the code has it.  A value that is not a string is passed through
    unchanged; a string is handed to [literal_eval], and whatever value the
    literal denotes is returned as it is, whatever its shape; the empty
    sequence is returned when [literal_eval] fails with a syntax error or a
    value error. *)
Theorem parse_roster_outcomes :
  forall literal_eval : string -> result value,
    (forall v, is_str v = false -> parse_roster literal_eval v = Ok v)
    /\ (forall s r, literal_eval s = Ok r ->
        parse_roster literal_eval (VStr s) = Ok r)
    /\ (forall s e, literal_eval s = Raise e ->
        e = ValueError \/ e = SyntaxError ->
        parse_roster literal_eval (VStr s) = Ok (VList [])).
Proof.
  intros literal_eval. unfold parse_roster. repeat split.
  - intros v Hv. destruct v; try reflexivity. discriminate.
  - intros s r ->. reflexivity.
  - intros s e -> [-> | ->]; reflexivity.
Qed.

(** ** The driver *)

Lemma map_result_length {A B : Type} (f : A -> result B) l l' :
  map_result f l = Ok l' -> List.length l' = List.length l.
Proof.
  revert l'. induction l as [|x l IH]; simpl; intros l'.
  - now intros [= <-].
  - destruct (f x) as [y|e]; simpl; [|discriminate].
    destruct (map_result f l) as [ys|e]; simpl; [|discriminate].
    intros [= <-]. simpl. now rewrite (IH ys).
Qed.

Lemma Forall2_zip_with {A B C : Type} (R : A -> C -> Prop) (f : A -> B -> A)
    (l : list A) (vs : list B) (base : list C) :
  (forall a b c, R a c -> R (f a b) c) ->
  List.length vs = List.length l ->
  Forall2 R l base -> Forall2 R (zip_with f l vs) base.
Proof.
  intros Hf Hlen H. revert vs Hlen.
  induction H as [|a c l base Hac _ IH]; intros [|v vs] Hlen;
    simpl in *; try discriminate; constructor; auto.
Qed.

Lemma setitem_keeps_rows stats_df analysis_df name values :
  name <> "year" -> name <> "team" ->
  List.length values = List.length (rows stats_df) ->
  keeps_rows stats_df analysis_df ->
  keeps_rows stats_df (setitem analysis_df name values).
Proof.
  intros Hy Ht Hlen [[others Hcols] Hrows].
  assert (Hlen' : List.length values = List.length (rows analysis_df)).
  { rewrite Hlen. symmetry. eapply Forall2_length, Hrows. }
  unfold setitem. destruct (has_column analysis_df name); split; simpl.
  - eauto.
  - apply Forall2_zip_with; auto.
    intros r v r0 [answers ->]. rewrite Hcols. unfold carried. simpl.
    apply String.eqb_neq in Hy, Ht. rewrite Hy, Ht. eauto.
  - rewrite Hcols. simpl. eauto.
  - apply Forall2_zip_with; auto.
    intros r v r0 [answers ->]. exists (answers ++ [v])%list. reflexivity.
Qed.

Lemma select_keeps_rows stats_df analysis_df :
  select stats_df ["year"; "team"] = Ok analysis_df ->
  keeps_rows stats_df analysis_df.
Proof.
  unfold select. destruct (forallb _ _); [|discriminate].
  intros [= <-]. split; simpl; [eauto|].
  induction (rows stats_df) as [|r l IH]; simpl; constructor; auto.
  exists []. reflexivity.
Qed.

Lemma keeps_rows_length stats_df analysis_df :
  keeps_rows stats_df analysis_df ->
  List.length (rows analysis_df) = List.length (rows stats_df).
Proof. intros [_ H]. eapply Forall2_length, H. Qed.

Section DriverProperties.

Variable literal_eval : string -> result value.

Lemma first_loop_keeps_rows stats_df
    (registry : list (string * (Series -> result bool))) :
  Forall (fun entry => fst entry <> "year" /\ fst entry <> "team") registry ->
  forall analysis_df analysis_df',
    keeps_rows stats_df analysis_df ->
    fold_result
      (fun analysis_df (entry : string * (Series -> result bool)) =>
         let (col_name, func) := entry in
         bind (apply_rows stats_df func) (fun answers =>
         Ok (setitem analysis_df col_name answers)))
      registry analysis_df = Ok analysis_df' ->
    keeps_rows stats_df analysis_df'.
Proof.
  induction 1 as [|[name func] registry [Hy Ht] _ IH];
    intros analysis_df analysis_df' Hinv; simpl.
  - now intros [= <-].
  - destruct (apply_rows stats_df func) as [answers|e] eqn:E; simpl;
      [|discriminate].
    apply IH. apply setitem_keeps_rows; auto.
    unfold apply_rows in E. apply (map_result_length _ _ _ E).
Qed.

Lemma second_loop_keeps_rows stats_df (names : list string) :
  Forall (fun name => name <> "year" /\ name <> "team") names ->
  forall analysis_df analysis_df',
    keeps_rows stats_df analysis_df ->
    fold_result
      (fun analysis_df col =>
         bind (column analysis_df col) (fun answers =>
         Ok (setitem analysis_df col (map yes_no answers))))
      names analysis_df = Ok analysis_df' ->
    keeps_rows stats_df analysis_df'.
Proof.
  induction 1 as [|name names [Hy Ht] _ IH];
    intros analysis_df analysis_df' Hinv; simpl.
  - now intros [= <-].
  - unfold column at 1. destruct (has_column analysis_df name); simpl;
      [|discriminate].
    apply IH. apply setitem_keeps_rows; auto.
    rewrite !length_map. now apply keeps_rows_length.
Qed.

(** Whenever the driver returns, its table has one row per input row, in
    the same order, with the year and the team carried through. *)
Theorem analyze_teams_keeps_rows stats_df analysis_df :
  analyze_teams literal_eval stats_df = Ok analysis_df ->
  keeps_rows stats_df analysis_df.
Proof.
  unfold analyze_teams. intros H.
  apply bind_ok_inv in H. destruct H as (df0 & H0 & H).
  apply bind_ok_inv in H. destruct H as (df1 & H1 & H2).
  apply select_keeps_rows in H0.
  assert (Hnames : Forall (fun entry : string * (Series -> result bool) =>
                             fst entry <> "year" /\ fst entry <> "team")
                          (ANALYSIS_FUNCTIONS literal_eval)).
  { repeat constructor; discriminate. }
  eapply second_loop_keeps_rows; [| |exact H2].
  - apply Forall_map. exact Hnames.
  - eapply first_loop_keeps_rows; eauto.
Qed.

Lemma has_column_setitem analysis_df name values other :
  has_column (setitem analysis_df name values) other
  = has_column analysis_df other || String.eqb other name.
Proof.
  unfold setitem. destruct (has_column analysis_df name) eqn:E.
  - unfold has_column at 1. simpl. fold (has_column analysis_df other).
    destruct (String.eqb_spec other name) as [->|]; [|now rewrite orb_false_r].
    rewrite E. reflexivity.
  - unfold has_column. simpl. rewrite existsb_app. simpl.
    now rewrite orb_false_r.
Qed.

Lemma map_result_ok {A B : Type} (f : A -> result B) l :
  Forall (fun x => exists y, f x = Ok y) l -> exists l', map_result f l = Ok l'.
Proof.
  induction 1 as [|x l [y Hy] _ [l' IH]]; simpl; [eauto|].
  rewrite Hy, IH. simpl. eauto.
Qed.

Lemma first_loop_returns stats_df
    (registry : list (string * (Series -> result bool))) :
  Forall (fun entry =>
            Forall (fun r => exists b,
                      snd entry (row_series (columns stats_df) r) = Ok b)
                   (rows stats_df)) registry ->
  forall analysis_df,
  exists analysis_df',
    fold_result
      (fun analysis_df (entry : string * (Series -> result bool)) =>
         let (col_name, func) := entry in
         bind (apply_rows stats_df func) (fun answers =>
         Ok (setitem analysis_df col_name answers)))
      registry analysis_df = Ok analysis_df'
    /\ forall name, In name (map fst registry) ->
                    has_column analysis_df' name = true.
Proof.
  induction 1 as [|[name func] registry Hrows _ IH]; intros analysis_df; simpl.
  - exists analysis_df. split; [reflexivity | contradiction].
  - assert (Hans : exists answers, apply_rows stats_df func = Ok answers).
    { apply map_result_ok. eapply Forall_impl; [|exact Hrows].
      simpl. intros r [b ->]. simpl. eauto. }
    destruct Hans as [answers ->]. simpl.
    destruct (IH (setitem analysis_df name answers)) as (df' & Hfold & Hcols).
    exists df'. split; [exact Hfold|].
    intros other [<-|Hin]; [|auto].
    clear - Hfold.
    assert (Hhere : has_column (setitem analysis_df name answers) name = true).
    { rewrite has_column_setitem, String.eqb_refl. apply orb_true_r. }
    revert Hhere Hfold. generalize (setitem analysis_df name answers).
    induction registry as [|[name' func'] registry IH]; simpl; intros d Hd.
    + now intros [= <-].
    + destruct (apply_rows stats_df func'); simpl; [|discriminate].
      apply IH. rewrite has_column_setitem, Hd. reflexivity.
Qed.

Lemma second_loop_returns (names : list string) :
  forall analysis_df,
    Forall (fun name => has_column analysis_df name = true) names ->
    exists analysis_df',
      fold_result
        (fun analysis_df col =>
           bind (column analysis_df col) (fun answers =>
           Ok (setitem analysis_df col (map yes_no answers))))
        names analysis_df = Ok analysis_df'.
Proof.
  induction names as [|name names IH]; intros analysis_df H; simpl; [eauto|].
  inversion H as [|? ? Hname Hnames]; subst.
  unfold column at 1. rewrite Hname. simpl. apply IH.
  eapply Forall_impl; [|exact Hnames]. simpl. intros other Hother.
  rewrite has_column_setitem, Hother. reflexivity.
Qed.

(** The driver returns a table as soon as the input has its two key columns
    and no predicate raises on any row. *)
Theorem analyze_teams_returns stats_df :
  has_column stats_df "year" = true ->
  has_column stats_df "team" = true ->
  Forall (fun entry : string * (Series -> result bool) =>
            Forall (fun r => exists b,
                      snd entry (row_series (columns stats_df) r) = Ok b)
                   (rows stats_df))
         (ANALYSIS_FUNCTIONS literal_eval) ->
  exists analysis_df,
    analyze_teams literal_eval stats_df = Ok analysis_df
    /\ keeps_rows stats_df analysis_df.
Proof.
  intros Hy Ht Hpreds.
  assert (E : exists analysis_df,
             analyze_teams literal_eval stats_df = Ok analysis_df).
  { assert (Hsel : exists df0, select stats_df ["year"; "team"] = Ok df0).
    { unfold select. cbn [forallb]. rewrite Hy, Ht. simpl. eauto. }
    destruct Hsel as [df0 Hsel].
    destruct (first_loop_returns stats_df _ Hpreds df0) as (df1 & Hf & Hcols).
    unfold analyze_teams. rewrite Hsel. cbn [bind]. rewrite Hf. cbn [bind].
    apply second_loop_returns. apply Forall_forall. exact Hcols. }
  destruct E as [analysis_df E]. exists analysis_df.
  split; [exact E | exact (analyze_teams_keeps_rows _ _ E)].
Qed.

End DriverProperties.

(* ===================================================================== *)
(** * Further properties *)
(* ===================================================================== *)

(** ** The rank cleaner *)

Lemma digit_is_no_suffix_start c b :
  is_digit c = true -> is_ordinal_suffix c b = false.
Proof.
  destruct c as [[] [] [] [] [] [] [] []]; try discriminate; reflexivity.
Qed.

Lemma digit_is_no_space c : is_digit c = true -> is_space c = false.
Proof.
  destruct c as [[] [] [] [] [] [] [] []]; try discriminate; reflexivity.
Qed.

Lemma suffix_end_is_no_space a b :
  is_ordinal_suffix a b = true -> is_space b = false /\ is_digit b = false.
Proof.
  unfold is_ordinal_suffix. intros H.
  repeat (apply orb_prop in H; destruct H as [H|H]);
    apply andb_prop in H; destruct H as [_ H];
    apply Ascii.eqb_eq in H; subst b; split; reflexivity.
Qed.

(** [rstrip] leaves a text alone when its last character is no blank. *)
Lemma rstrip_ends_non_space s c :
  is_space c = false -> rstrip (s ++ String c "") = s ++ String c "".
Proof.
  intros Hc. induction s as [|a s IH]; simpl.
  - now rewrite Hc.
  - rewrite IH. destruct s; reflexivity.
Qed.

Lemma remove_ordinals_step k a b r :
  remove_ordinals k (String a (String b r))
  = if k && is_ordinal_suffix a b then remove_ordinals false r
    else String a (remove_ordinals (is_digit a) (String b r)).
Proof. reflexivity. Qed.

Lemma remove_ordinals_app_digits d rest k :
  all_digits d = true -> d <> "" ->
  remove_ordinals k (d ++ rest) = d ++ remove_ordinals true rest.
Proof.
  revert k. induction d as [|c d IH]; intros k Hd Hne; [contradiction|].
  simpl in Hd. apply andb_prop in Hd. destruct Hd as [Hc Hd].
  destruct d as [|c' d].
  - destruct rest as [|b rest]; [reflexivity|].
    change ("" ++ String b rest) with (String b rest).
    change (String c "" ++ String b rest) with (String c (String b rest)).
    rewrite remove_ordinals_step.
    rewrite (digit_is_no_suffix_start c b Hc), andb_false_r, Hc.
    reflexivity.
  - specialize (IH true Hd ltac:(discriminate)).
    change ((String c (String c' d)) ++ rest)
      with (String c (String c' (d ++ rest))).
    rewrite remove_ordinals_step.
    rewrite (digit_is_no_suffix_start c c' Hc), andb_false_r, Hc.
    change (String c' (d ++ rest)) with (String c' d ++ rest).
    rewrite IH. reflexivity.
Qed.

Lemma str_app_assoc (a b c : string) : (a ++ b) ++ c = a ++ (b ++ c).
Proof. induction a as [|x a IH]; simpl; congruence. Qed.

Lemma strip_digits_suffix d a b :
  all_digits d = true -> d <> "" -> is_ordinal_suffix a b = true ->
  strip (d ++ String a (String b "")) = d ++ String a (String b "").
Proof.
  intros Hd Hne Hs. unfold strip.
  assert (Hl : lstrip (d ++ String a (String b "")) = d ++ String a (String b "")).
  { destruct d as [|c d]; [contradiction|]. simpl in *.
    apply andb_prop in Hd. destruct Hd as [Hc _].
    now rewrite (digit_is_no_space c Hc). }
  rewrite Hl.
  change (d ++ String a (String b "")) with (d ++ (String a "" ++ String b "")).
  rewrite <- (str_app_assoc d).
  apply rstrip_ends_non_space. now apply (suffix_end_is_no_space a b).
Qed.

Lemma clean_ordinal d a b :
  all_digits d = true -> d <> "" ->
  is_ordinal_suffix a b = true ->
  clean_rank_text (d ++ String a (String b "")) = d.
Proof.
  intros Hd Hne Hs. unfold clean_rank_text.
  rewrite (strip_digits_suffix d a b Hd Hne Hs).
  rewrite (remove_ordinals_app_digits d _ false Hd Hne).
  cbn [remove_ordinals]. rewrite Hs. simpl. apply append_empty.
Qed.

Lemma rstrip_digits d : all_digits d = true -> rstrip d = d.
Proof.
  induction d as [|c d IH]; [reflexivity|]. simpl.
  intros H. apply andb_prop in H. destruct H as [Hc Hd].
  rewrite (IH Hd), (digit_is_no_space c Hc). destruct d; reflexivity.
Qed.

Lemma strip_digits d : all_digits d = true -> strip d = d.
Proof.
  intros Hd. unfold strip.
  assert (Hl : lstrip d = d).
  { destruct d as [|c d]; [reflexivity|]. simpl in *.
    apply andb_prop in Hd. destruct Hd as [Hc _].
    now rewrite (digit_is_no_space c Hc). }
  rewrite Hl. now apply rstrip_digits.
Qed.

Lemma remove_ordinals_digits d k :
  all_digits d = true -> remove_ordinals k d = d.
Proof.
  intros Hd. destruct d as [|c d]; [now destruct k|].
  generalize (remove_ordinals_app_digits (String c d) "" k Hd
                ltac:(discriminate)).
  rewrite !append_empty. intros ->. reflexivity.
Qed.

Lemma clean_digits d : all_digits d = true -> clean_rank_text d = d.
Proof.
  intros Hd. unfold clean_rank_text. rewrite (strip_digits d Hd).
  now apply remove_ordinals_digits.
Qed.

(** X1.  The rank cleaner on the texts it is meant for.  A run of digits is
    left as it is, and a run of digits followed by st, nd, rd or th is
    cleaned to the run of digits. *)
Theorem clean_rank_text_keeps_the_number :
  forall d : string,
    all_digits d = true -> d <> "" ->
    clean_rank_text d = d
    /\ forall a b : ascii,
         is_ordinal_suffix a b = true ->
         clean_rank_text (d ++ String a (String b "")) = d.
Proof.
  intros d Hd Hne. split; [now apply clean_digits|].
  intros a b Hs. now apply clean_ordinal.
Qed.

Lemma scan_digits_all r acc n :
  all_digits r = true ->
  scan_digits r acc n false = Some (digits_value r acc, n + str_len r).
Proof.
  revert acc n. induction r as [|c r IH]; intros acc n H; simpl.
  - unfold str_len. simpl. now rewrite Z.add_0_r.
  - simpl in H. apply andb_prop in H. destruct H as [Hc Hr].
    rewrite Hc, (IH _ _ Hr). unfold str_len. simpl String.length.
    do 2 f_equal. lia.
Qed.

(** [int()] of a run of digits is the number the digits denote. *)
Lemma int_of_digits d :
  all_digits d = true -> d <> "" -> str_len d <= int_max_str_digits ->
  int_of_str d = Ok (digits_value d 0).
Proof.
  intros Hd Hne Hlen. unfold int_of_str. rewrite (strip_digits d Hd).
  destruct d as [|c r]; [contradiction|].
  assert (E : int_digits (String c r) = Ok (digits_value (String c r) 0)).
  { simpl in Hd. apply andb_prop in Hd. destruct Hd as [Hc Hr].
    unfold int_digits. rewrite Hc, (scan_digits_all r _ _ Hr).
    unfold str_len in *. simpl String.length in Hlen.
    destruct (Z.ltb_spec int_max_str_digits (1 + Z.of_nat (String.length r)));
      [lia | reflexivity]. }
  simpl in Hd. apply andb_prop in Hd. destruct Hd as [Hc _].
  destruct c as [[] [] [] [] [] [] [] []]; try discriminate; exact E.
Qed.

(** X2.  The two files agree on the rank cells.  What the collector's cleaner
    makes of an ordinal such as 12th is read by each of the seven rank
    predicates as the number 12: the answer is whether that number is at
    most 50. *)
Theorem cleaned_ordinal_is_read_as_its_number :
  forall field pred, In (field, pred) top_50_predicates ->
  forall (row : Series) (d : string) (a b : ascii),
    all_digits d = true -> d <> "" -> str_len d <= int_max_str_digits ->
    is_ordinal_suffix a b = true ->
    lookup field row
      = Some (VStr (clean_rank_text (d ++ String a (String b "")))) ->
    pred row = Ok (digits_value d 0 <=? 50).
Proof.
  intros field pred Hin row d a b Hd Hne Hlen Hs Hl.
  rewrite (in_top_50 _ _ Hin), (rank_check_str _ _ _ _ Hl).
  rewrite (clean_ordinal d a b Hd Hne Hs), (int_of_digits d Hd Hne Hlen).
  reflexivity.
Qed.

Lemma suffix_has_no_digit a b :
  is_ordinal_suffix a b = true -> is_digit a = false /\ is_digit b = false.
Proof.
  unfold is_ordinal_suffix. intros H.
  repeat (apply orb_prop in H; destruct H as [H|H]);
    apply andb_prop in H; destruct H as [Ha Hb];
    apply Ascii.eqb_eq in Ha, Hb; subst a b; split; reflexivity.
Qed.

Lemma space_is_no_digit c : is_space c = true -> is_digit c = false.
Proof.
  destruct c as [[] [] [] [] [] [] [] []]; try discriminate; reflexivity.
Qed.

Lemma digits_of_lstrip s : digits_of (lstrip s) = digits_of s.
Proof.
  induction s as [|c s IH]; [reflexivity|]. simpl.
  destruct (is_space c) eqn:E; [|reflexivity].
  now rewrite (space_is_no_digit c E).
Qed.

Lemma digits_of_rstrip s : digits_of (rstrip s) = digits_of s.
Proof.
  induction s as [|c s IH]; [reflexivity|]. simpl.
  destruct (rstrip s) as [|x t] eqn:E.
  - rewrite <- IH. simpl. destruct (is_space c) eqn:Ec.
    + now rewrite (space_is_no_digit c Ec).
    + simpl. now destruct (is_digit c).
  - simpl digits_of at 1. rewrite <- IH. reflexivity.
Qed.

Lemma digits_of_cons c r :
  digits_of (String c r)
  = if is_digit c then String c (digits_of r) else digits_of r.
Proof. reflexivity. Qed.

Lemma digits_of_remove_ordinals s :
  (forall k, digits_of (remove_ordinals k s) = digits_of s)
  /\ (forall k a, digits_of (remove_ordinals k (String a s))
                  = digits_of (String a s)).
Proof.
  induction s as [|b r [IH1 IH2]].
  - split; intros; now destruct k.
  - split; [intros k; apply IH2|].
    intros k a. rewrite remove_ordinals_step.
    destruct (k && is_ordinal_suffix a b) eqn:E.
    + apply andb_prop in E. destruct E as [_ E].
      destruct (suffix_has_no_digit a b E) as [Ha Hb].
      rewrite IH1, (digits_of_cons a), (digits_of_cons b), Ha, Hb.
      reflexivity.
    + rewrite (digits_of_cons a (remove_ordinals _ _)), IH2.
      rewrite (digits_of_cons a (String b r)). reflexivity.
Qed.

Lemma remove_ordinals_no_digit s :
  (digits_of s = "" -> remove_ordinals false s = s)
  /\ (forall a, digits_of (String a s) = "" ->
                remove_ordinals false (String a s) = String a s).
Proof.
  induction s as [|b r [IH1 IH2]].
  - split; intros; reflexivity.
  - split; [apply IH2|].
    intros a H. rewrite remove_ordinals_step. cbn [andb].
    rewrite (digits_of_cons a) in H.
    destruct (is_digit a) eqn:Ea; [discriminate|].
    f_equal. apply IH2. exact H.
Qed.

(** X3.  The rank cleaner never touches a digit.  The digits of the cleaned
    text are the digits of the text, in the same order, and a text without
    any digit is only stripped of the blanks around it. *)
Theorem clean_rank_text_keeps_digits :
  forall s : string,
    digits_of (clean_rank_text s) = digits_of s
    /\ (digits_of s = "" -> clean_rank_text s = strip s).
Proof.
  intros s. unfold clean_rank_text.
  assert (Hs : digits_of (strip s) = digits_of s).
  { unfold strip. now rewrite digits_of_rstrip, digits_of_lstrip. }
  split.
  - rewrite (proj1 (digits_of_remove_ordinals (strip s))). exact Hs.
  - intros H. apply (proj1 (remove_ordinals_no_digit (strip s))).
    now rewrite Hs.
Qed.

(** The cleaner is not idempotent: a suffix behind a removed suffix
    survives the first pass. *)
Example clean_rank_text_twice :
  clean_rank_text "1stst" = "1st" /\ clean_rank_text "1st" = "1".
Proof. split; reflexivity. Qed.

(** ** The collector's table *)

Lemma existsb_eqb_In name (cols : list string) :
  existsb (String.eqb name) cols = true <-> In name cols.
Proof.
  rewrite existsb_exists. split.
  - intros (x & Hx & E). apply String.eqb_eq in E. now subst.
  - intros H. exists name. split; [exact H | apply String.eqb_refl].
Qed.

Lemma in_add_keys k d seen :
  In k seen \/ has_key k d = true -> In k (add_keys seen d).
Proof.
  revert seen. induction d as [|[k' v] d IH]; intros seen; simpl.
  - intros [H|H]; [exact H | discriminate].
  - intros H. destruct (existsb (String.eqb k') seen) eqn:E; apply IH.
    + destruct H as [H|H]; [now left|].
      apply orb_prop in H. destruct H as [H|H]; [|now right].
      left. apply String.eqb_eq in H. subst k'. now apply existsb_eqb_In.
    + destruct H as [H|H]; [left; apply in_or_app; now left|].
      apply orb_prop in H. destruct H as [H|H]; [|now right].
      left. apply String.eqb_eq in H. subst k'. apply in_or_app.
      right. now left.
Qed.

Lemma in_fold_add_keys k records seen :
  In k seen \/ existsb (has_key k) records = true ->
  In k (fold_left add_keys records seen).
Proof.
  revert seen. induction records as [|d records IH]; intros seen; simpl.
  - intros [H|H]; [exact H | discriminate].
  - intros H. apply IH. destruct H as [H|H].
    + left. apply in_add_keys. now left.
    + apply orb_prop in H. destruct H as [H|H]; [|now right].
      left. apply in_add_keys. now right.
Qed.

Lemma lookup_combine_map (f : string -> value) c cols :
  In c cols -> lookup c (combine cols (map f cols)) = Some (f c).
Proof.
  induction cols as [|c' cols IH]; simpl; [contradiction|].
  intros H. destruct (String.eqb_spec c c') as [->|Hne]; [reflexivity|].
  destruct H as [H|H]; [congruence | now apply IH].
Qed.

Section CollectorProperties.

Variable get_final_four_teams : Z -> result (list record).

Lemma seasons_fold (teams_of : Z -> list record) years acc :
  Forall (fun year => get_final_four_teams year = Ok (teams_of year)) years ->
  fold_result
    (fun all_teams year =>
       teams <- get_final_four_teams year ;;
       Ok (all_teams ++ teams)%list)
    years acc
  = Ok (acc ++ flat_map teams_of years)%list.
Proof.
  intros H. revert acc. induction H as [|year years Hy _ IH]; intros acc.
  - simpl. now rewrite app_nil_r.
  - simpl. rewrite Hy. simpl. rewrite IH. now rewrite <- app_assoc.
Qed.

Lemma seasons_visited (P : Z -> Prop) :
  (forall year, 2010 <= year < 2025 -> P year) ->
  Forall P (range (2025 - 15) 2025).
Proof. intros H. repeat constructor; apply H; lia. Qed.

(** X4.  Nothing scraped, no table.  When no season yields a team (every
    request failed, say), the table has no column at all and selecting year
    and team raises [KeyError]. *)
Theorem get_recent_final_four_teams_raises_without_teams :
  (forall year, 2010 <= year < 2025 -> get_final_four_teams year = Ok []) ->
  get_recent_final_four_teams get_final_four_teams = Raise KeyError.
Proof.
  intros H. unfold get_recent_final_four_teams.
  rewrite (seasons_fold (fun _ => []) _ [] (seasons_visited _ H)).
  reflexivity.
Qed.

(** X5.  The table of the collector.  When the seasons 2010 to 2024 yield
    their teams and the keys year and team occur among them, the result has
    one row per team, season after season; its columns are year and team
    followed by the other keys in the order in which the teams first show
    them; each cell is the team's own value for the column, or NaN. *)
Theorem get_recent_final_four_teams_table :
  forall teams_of : Z -> list record,
    (forall year, 2010 <= year < 2025 ->
                  get_final_four_teams year = Ok (teams_of year)) ->
    let all_teams := flat_map teams_of (range 2010 2025) in
    let cols := year_team_first (union_keys all_teams) in
    existsb (has_key "year") all_teams = true ->
    existsb (has_key "team") all_teams = true ->
    get_recent_final_four_teams get_final_four_teams
    = Ok {| columns := cols;
            rows := map (fun d => map (record_cell d) cols) all_teams |}.
Proof.
  intros teams_of H all_teams cols Hyear Hteam.
  unfold get_recent_final_four_teams.
  rewrite (seasons_fold teams_of _ [] (seasons_visited _ H)).
  cbn [bind app].
  change (select (from_records all_teams) cols
          = Ok {| columns := cols;
                  rows := map (fun d => map (record_cell d) cols) all_teams |}).
  assert (Hcols : forall c, In c cols -> In c (union_keys all_teams)).
  { intros c [<-|[<-|Hc]].
    - apply in_fold_add_keys. now right.
    - apply in_fold_add_keys. now right.
    - apply filter_In in Hc. tauto. }
  unfold select.
  assert (Hall : forallb (has_column (from_records all_teams)) cols = true).
  { apply forallb_forall. intros c Hc. apply existsb_eqb_In. now apply Hcols. }
  rewrite Hall. f_equal. f_equal. cbn [rows from_records columns].
  rewrite map_map. apply map_ext. intros d.
  apply map_ext_in. intros c Hc. unfold cell, row_series.
  now rewrite (lookup_combine_map (record_cell d) c _ (Hcols c Hc)).
Qed.

End CollectorProperties.

(** ** More on the roster predicates *)

Section MoreRosterProperties.

Variable literal_eval : string -> result value.

(** *** Experienced Core *)

Lemma count_if_class codes l :
  forallb is_dict l = true ->
  count_if (fun player => c <- get player "class" (VStr "") ;;
                          Ok (in_strs c codes)) l
  = Ok (count_true (has_class codes) l).
Proof.
  induction l as [|p l IH]; intros H; [reflexivity|].
  simpl in H. apply andb_prop in H. destruct H as [Hp Hl].
  destruct p; try discriminate.
  rewrite count_true_cons. cbn [count_if]. rewrite (IH Hl).
  unfold has_class. cbn [get bind].
  destruct (in_strs _ codes); f_equal; lia.
Qed.

(** X6.  Experienced Core on records.  On a roster whose first 5 entries are
    dictionaries, the answer is whether the entries of class JR or SR
    outnumber those of class FR or SO among the first 5; any other class,
    and a missing one, counts on neither side. *)
Theorem has_experienced_core_compares_classes :
  forall (row : Series) (l : list value),
    parsed_roster literal_eval row = Ok (VList l) ->
    (5 <= List.length l)%nat ->
    forallb is_dict (firstn 5 l) = true ->
    has_experienced_core literal_eval row
    = Ok (count_true (has_class ["JR"; "SR"]) (firstn 5 l)
          >? count_true (has_class ["FR"; "SO"]) (firstn 5 l)).
Proof.
  intros row l Hp Hlen Hd. unfold has_experienced_core.
  rewrite (top_5_of_list _ _ _ Hp), (not_short _ Hlen). cbn [bind].
  rewrite !(count_if_class _ _ Hd). reflexivity.
Qed.

(** *** Multiple Top Recruits *)

Lemma str_length_app (a b : string) :
  String.length (a ++ b) = (String.length a + String.length b)%nat.
Proof. induction a as [|c a IH]; simpl; congruence. Qed.

Lemma match_digits_some t figure :
  match_digits t = Some figure ->
  all_digits figure = true /\ figure <> ""
  /\ str_len figure <= str_len t.
Proof.
  unfold match_digits. destruct (span_digits_spec t) as (H1 & _ & H3).
  destruct (span_digits t) as [d rest]. simpl in *.
  destruct d as [|c d]; [discriminate|]. intros [= <-].
  split; [exact H1|]. split; [discriminate|].
  apply (f_equal String.length) in H3. rewrite str_length_app in H3.
  unfold str_len. simpl String.length in *. lia.
Qed.

Lemma count_recruit_text acc p :
  has_short_text "rsci_rank" p = true ->
  count_recruit acc p = Ok (if is_top_100_recruit p then acc + 1 else acc).
Proof.
  unfold has_short_text, is_top_100_recruit, count_recruit, field_text.
  destruct (get p "rsci_rank" (VStr "")) as [[| | | |t| | |]|];
    try discriminate.
  intros Hlen. apply Z.leb_le in Hlen. cbn [bind re_match].
  destruct (match_digits t) as [figure|] eqn:E; [|reflexivity].
  destruct (match_digits_some _ _ E) as (Hd & Hne & Hfig).
  rewrite (int_of_digits figure Hd Hne ltac:(lia)). reflexivity.
Qed.

Lemma for_each_count_recruit l acc :
  forallb (has_short_text "rsci_rank") l = true ->
  for_each count_recruit l acc = Ok (acc + count_true is_top_100_recruit l).
Proof.
  revert acc. induction l as [|p l IH]; intros acc H.
  - simpl. f_equal. unfold count_true. simpl. lia.
  - simpl in H. apply andb_prop in H. destruct H as [Hp Hl].
    simpl. rewrite (count_recruit_text _ _ Hp). simpl. rewrite (IH _ Hl).
    rewrite count_true_cons. f_equal. destruct (is_top_100_recruit p); lia.
Qed.

(** X7.  Multiple Top Recruits on records.  On a roster whose first 5 entries
    are dictionaries with a recruit-ranking text (of at most 4300
    characters, the most [int()] reads), the answer is whether at least 2 of
    the first 5 rankings start with a number of at most 100; a ranking that
    does not start with a digit counts for nothing. *)
Theorem has_top_recruits_counts_leading_numbers :
  forall (row : Series) (l : list value),
    parsed_roster literal_eval row = Ok (VList l) ->
    (5 <= List.length l)%nat ->
    forallb (has_short_text "rsci_rank") (firstn 5 l) = true ->
    has_top_recruits literal_eval row
    = Ok (2 <=? count_true is_top_100_recruit (firstn 5 l)).
Proof.
  intros row l Hp Hlen Ht. unfold has_top_recruits.
  rewrite (top_5_of_list _ _ _ Hp), (not_short _ Hlen). cbn [bind].
  rewrite (for_each_count_recruit _ _ Ht). cbn [bind try_except].
  now rewrite Z.geb_leb.
Qed.

(** *** What Experienced Core and Has Size do with entries of any kind *)








(** X10.  A roster that is missing, unreadable or empty.  When the row has no
    roster field, when the roster text fails to parse with a syntax or value
    error, or when the parsed roster is empty (or otherwise false in a
    test), each of the four roster predicates answers false. *)
Theorem roster_predicates_false_without_roster :
  forall pred, In pred (roster_predicates literal_eval) ->
  forall row : Series,
    (lookup "roster" row = None -> pred row = Ok false)
    /\ (forall s e, lookup "roster" row = Some (VStr s) ->
                    literal_eval s = Raise e ->
                    e = ValueError \/ e = SyntaxError ->
                    pred row = Ok false)
    /\ (forall roster, parsed_roster literal_eval row = Ok roster ->
                       truthy roster = false ->
                       pred row = Ok false).
Proof.
  intros pred Hin row.
  destruct (in_roster_predicates _ _ Hin) as [body ->].
  assert (Hfalsy : forall roster,
             parsed_roster literal_eval row = Ok roster ->
             truthy roster = false ->
             roster_check literal_eval body row = Ok false).
  { intros roster Hp Ht. unfold roster_check.
    rewrite (top_5_of_parsed _ _ _ Hp), Ht. reflexivity. }
  split; [|split; [|exact Hfalsy]].
  - intros H. unfold roster_check, top_5_of, getitem. rewrite H. reflexivity.
  - intros s e Hl He Hcase. apply (Hfalsy (VList [])); [|reflexivity].
    unfold parsed_roster, getitem, parse_roster. rewrite Hl. cbn [bind].
    rewrite He. destruct Hcase as [-> | ->]; reflexivity.
Qed.

End MoreRosterProperties.

(** ** More on the rank predicates *)

Lemma rank_check_int field test row n :
  lookup field row = Some (VInt n) -> rank_check field test row = Ok (test n).
Proof. unfold rank_check, getitem. now intros ->. Qed.

Lemma rank_check_nan field test row :
  lookup field row = Some nan -> rank_check field test row = Ok false.
Proof. unfold rank_check, getitem. now intros ->. Qed.

(** X11.  Number cells and text cells agree.  A table read back from a file
    holds a rank as a number or as a text, depending on the rest of its
    column: each of the eight rank predicates gives the same answer for the
    integer and for its decimal text, and an empty cell (NaN) gives
    false. *)
Theorem rank_predicates_read_numbers_like_texts :
  forall field pred,
    In (field, pred) (("TOV Rank", protects_basketball) :: top_50_predicates) ->
    (forall (row_text row_number : Series) (d : string),
        all_digits d = true -> d <> "" ->
        str_len d <= int_max_str_digits ->
        lookup field row_text = Some (VStr d) ->
        lookup field row_number = Some (VInt (digits_value d 0)) ->
        pred row_text = pred row_number)
    /\ (forall row : Series,
          lookup field row = Some nan -> pred row = Ok false).
Proof.
  intros field pred Hin.
  assert (E : exists test, pred = rank_check field test).
  { destruct Hin as [[= <- <-]|Hin]; [eexists; reflexivity|].
    rewrite (in_top_50 _ _ Hin). eauto. }
  destruct E as [test ->]. split.
  - intros row_text row_number d Hd Hne Hlen Ht Hn.
    rewrite (rank_check_str _ _ _ _ Ht), (rank_check_int _ _ _ _ Hn).
    now rewrite (int_of_digits d Hd Hne Hlen).
  - intros row. apply rank_check_nan.
Qed.

(** ** The table of the driver *)

Lemma apply_rows_ok stats_df func answers :
  apply_rows stats_df func = Ok answers ->
  answers = map (fun r => raw_answer (func (row_series (columns stats_df) r)))
                (rows stats_df)
  /\ Forall (fun r => exists b, func (row_series (columns stats_df) r) = Ok b)
            (rows stats_df).
Proof.
  unfold apply_rows. revert answers.
  induction (rows stats_df) as [|r l IH]; intros answers; simpl.
  - intros [= <-]. split; [reflexivity | constructor].
  - destruct (func (row_series (columns stats_df) r)) as [b|e] eqn:Eb; simpl;
      [|discriminate].
    destruct (map_result _ l) as [ys|e]; simpl; [|discriminate].
    intros [= <-]. destruct (IH ys eq_refl) as [-> HF].
    split; [try rewrite Eb; reflexivity | constructor; eauto].
Qed.

Lemma zip_with_map {A B C D : Type} (f : B -> C -> D) (g : A -> B)
    (h : A -> C) (l : list A) :
  zip_with f (map g l) (map h l) = map (fun x => f (g x) (h x)) l.
Proof. induction l as [|x l IH]; simpl; congruence. Qed.

Lemma has_column_false adf name :
  ~ In name (columns adf) -> has_column adf name = false.
Proof.
  intros H. unfold has_column.
  destruct (existsb (String.eqb name) (columns adf)) eqn:E; [|reflexivity].
  apply existsb_eqb_In in E. contradiction.
Qed.

Lemma has_column_true adf name :
  In name (columns adf) -> has_column adf name = true.
Proof. intros H. now apply existsb_eqb_In. Qed.

Lemma NoDup_not_in_prefix (pre : list string) name post :
  NoDup (pre ++ name :: post) -> ~ In name pre.
Proof.
  intros H Hin. apply NoDup_remove_2 in H. apply H.
  apply in_or_app. now left.
Qed.

Lemma setitem_new adf name values :
  has_column adf name = false ->
  setitem adf name values
  = {| columns := (columns adf ++ [name])%list;
       rows := zip_with (fun r v => (r ++ [v])%list) (rows adf) values |}.
Proof. unfold setitem. now intros ->. Qed.

Lemma setitem_old adf name values :
  has_column adf name = true ->
  setitem adf name values
  = {| columns := columns adf;
       rows := zip_with (fun r v => set_cell (columns adf) r name v)
                 (rows adf) values |}.
Proof. unfold setitem. now intros ->. Qed.

(** The first loop adds one column per registered predicate, on the right,
    holding its outcomes row by row. *)
Lemma first_loop_table stats_df
    (registry : list (string * (Series -> result bool))) :
  forall (analysis_df analysis_df' : DataFrame)
         (g : list value -> list value),
    NoDup (columns analysis_df ++ map fst registry) ->
    rows analysis_df = map g (rows stats_df) ->
    fold_result
      (fun analysis_df (entry : string * (Series -> result bool)) =>
         let (col_name, func) := entry in
         answers <- apply_rows stats_df func ;;
         Ok (setitem analysis_df col_name answers))
      registry analysis_df = Ok analysis_df' ->
    columns analysis_df' = (columns analysis_df ++ map fst registry)%list
    /\ rows analysis_df'
       = map (fun r =>
                (g r ++ map (fun entry : string * (Series -> result bool) =>
                               raw_answer
                                 (snd entry (row_series (columns stats_df) r)))
                          registry)%list)
             (rows stats_df)
    /\ Forall (fun entry : string * (Series -> result bool) =>
                 Forall (fun r => exists b,
                           snd entry (row_series (columns stats_df) r) = Ok b)
                        (rows stats_df))
              registry.
Proof.
  induction registry as [|[name func] registry IH];
    intros analysis_df analysis_df' g Hnd Hrows; simpl.
  - intros [= <-]. rewrite app_nil_r. split; [reflexivity|]. split; [|auto].
    rewrite Hrows. apply map_ext. intros r. now rewrite app_nil_r.
  - destruct (apply_rows stats_df func) as [answers|e] eqn:E; simpl;
      [|discriminate].
    destruct (apply_rows_ok _ _ _ E) as [-> Hok].
    simpl in Hnd.
    assert (Hnew : has_column analysis_df name = false).
    { apply has_column_false. eapply NoDup_not_in_prefix, Hnd. }
    rewrite (setitem_new _ _ _ Hnew). intros Hfold.
    set (g1 := fun r => (g r ++ [raw_answer
                                   (func (row_series (columns stats_df) r))])%list).
    set (adf1 := {| columns := (columns analysis_df ++ [name])%list;
                    rows := zip_with (fun r v => (r ++ [v])%list)
                              (rows analysis_df)
                              (map (fun r => raw_answer
                                      (func (row_series (columns stats_df) r)))
                                   (rows stats_df)) |}) in Hfold.
    assert (Hnd1 : NoDup (columns adf1 ++ map fst registry)).
    { unfold adf1. cbn [columns]. now rewrite <- app_assoc. }
    assert (Hrows1 : rows adf1 = map g1 (rows stats_df)).
    { unfold adf1. cbn [rows]. rewrite Hrows. apply zip_with_map. }
    destruct (IH adf1 analysis_df' g1 Hnd1 Hrows1 Hfold) as (Hc & Hr & HF).
    unfold adf1 in Hc. cbn [columns] in Hc.
    split; [now rewrite Hc, <- app_assoc|]. split; [|auto].
    rewrite Hr. apply map_ext. intros r. unfold g1. now rewrite <- app_assoc.
Qed.

Lemma lookup_at (done : list string) name todo (h : list value) x t :
  List.length h = List.length done -> ~ In name done ->
  lookup name (combine (done ++ name :: todo) (h ++ x :: t)) = Some x.
Proof.
  revert h. induction done as [|c done IH]; intros [|y h] Hlen Hin;
    simpl in *; try discriminate.
  - now rewrite String.eqb_refl.
  - destruct (String.eqb_spec name c) as [->|_]; [tauto|].
    apply IH; [lia | tauto].
Qed.

Lemma set_cell_at (done : list string) name todo (h : list value) x t v :
  List.length h = List.length done -> ~ In name done ->
  set_cell (done ++ name :: todo) (h ++ x :: t) name v = (h ++ v :: t)%list.
Proof.
  revert h. induction done as [|c done IH]; intros [|y h] Hlen Hin;
    simpl in *; try discriminate.
  - now rewrite String.eqb_refl.
  - destruct (String.eqb_spec name c) as [->|_]; [tauto|].
    f_equal. apply IH; [lia | tauto].
Qed.

Lemma column_present df name :
  has_column df name = true ->
  column df name = Ok (map (fun r => cell (columns df) r name) (rows df)).
Proof. unfold column. now intros ->. Qed.

(** The second loop rewrites the answer columns in place, one after the
    other. *)
Lemma second_loop_table (base : list (list value)) (todo : list string) :
  forall (done : list string) (h t : list value -> list value),
    NoDup (done ++ todo) ->
    (forall r, List.length (h r) = List.length done) ->
    (forall r, List.length (t r) = List.length todo) ->
    fold_result
      (fun analysis_df col =>
         answers <- column analysis_df col ;;
         Ok (setitem analysis_df col (map yes_no answers)))
      todo
      {| columns := (done ++ todo)%list;
         rows := map (fun r => (h r ++ t r)%list) base |}
    = Ok {| columns := (done ++ todo)%list;
            rows := map (fun r => (h r ++ map yes_no (t r))%list) base |}.
Proof.
  induction todo as [|name todo IH]; intros done h t Hnd Hh Ht.
  - simpl. do 2 f_equal. apply map_ext. intros r.
    specialize (Ht r). destruct (t r); [reflexivity | discriminate].
  - assert (Hnot : ~ In name done) by (eapply NoDup_not_in_prefix, Hnd).
    assert (Hcell : forall r,
               (h r ++ t r)%list = (h r ++ hd nan (t r) :: tl (t r))%list).
    { intros r. specialize (Ht r). destruct (t r); [discriminate|reflexivity]. }
    cbn [fold_result].
    rewrite column_present
      by (apply has_column_true; cbn [columns]; apply in_or_app; right;
          now left).
    cbn [bind].
    rewrite setitem_old
      by (apply has_column_true; cbn [columns]; apply in_or_app; right;
          now left).
    cbn [columns rows]. rewrite !map_map.
    rewrite (zip_with_map
               (fun (r0 : list value) v =>
                  set_cell (done ++ name :: todo) r0 name v)
               (fun r => (h r ++ t r)%list)
               (fun r => yes_no (cell (done ++ name :: todo)
                                   (h r ++ t r)%list name))).
    replace (map _ base)
      with (map (fun r => ((h r ++ [yes_no (hd nan (t r))])
                           ++ tl (t r))%list) base).
    + replace (done ++ name :: todo)%list
        with ((done ++ [name]) ++ todo)%list by now rewrite <- app_assoc.
      rewrite (IH (done ++ [name])%list
                 (fun r => (h r ++ [yes_no (hd nan (t r))])%list)
                 (fun r => tl (t r))).
      * do 2 f_equal. apply map_ext. intros r. rewrite <- app_assoc.
        specialize (Ht r). destruct (t r); [discriminate | reflexivity].
      * now rewrite <- app_assoc.
      * intros r. rewrite !length_app, Hh. reflexivity.
      * intros r. specialize (Ht r). destruct (t r); simpl in *;
          [discriminate | lia].
    + apply map_ext. intros r. rewrite (Hcell r).
      unfold cell, row_series.
      rewrite (lookup_at done name todo (h r) _ _ (Hh r) Hnot).
      rewrite (set_cell_at done name todo (h r) _ _ _ (Hh r) Hnot).
      now rewrite <- app_assoc.
Qed.

Lemma registry_names_distinct literal_eval :
  NoDup (["year"; "team"] ++ map fst (ANALYSIS_FUNCTIONS literal_eval)).
Proof.
  simpl.
  repeat (constructor;
          [simpl; intros H;
           repeat (destruct H as [H|H]; [discriminate H|]); exact H|]).
  constructor.
Qed.

Section MoreDriverProperties.

Variable literal_eval : string -> result value.

(** What a returned table tells: the key columns were there, no predicate
    raised, and the table is the one described by [analysis_row]. *)
Lemma analyze_teams_ok_inv stats_df analysis_df :
  analyze_teams literal_eval stats_df = Ok analysis_df ->
  has_column stats_df "year" = true
  /\ has_column stats_df "team" = true
  /\ no_predicate_raises literal_eval stats_df
  /\ analysis_df
     = {| columns := "year" :: "team"
                     :: map fst (ANALYSIS_FUNCTIONS literal_eval);
          rows := map (analysis_row literal_eval (columns stats_df))
                      (rows stats_df) |}.
Proof.
  unfold analyze_teams. intros H.
  apply bind_ok_inv in H. destruct H as (df0 & H0 & H).
  apply bind_ok_inv in H. destruct H as (df1 & H1 & H2).
  unfold select in H0. cbn [forallb] in H0.
  destruct (has_column stats_df "year"); [|discriminate].
  destruct (has_column stats_df "team"); [|discriminate].
  cbn [andb] in H0. injection H0 as <-.
  destruct (first_loop_table stats_df (ANALYSIS_FUNCTIONS literal_eval)
              {| columns := ["year"; "team"];
                 rows := map (carried (columns stats_df)) (rows stats_df) |}
              df1 (carried (columns stats_df))
              (registry_names_distinct literal_eval) eq_refl H1)
    as (Hc & Hr & HF).
  split; [reflexivity|]. split; [reflexivity|]. split; [exact HF|].
  destruct df1 as [cols1 rows1]. cbn [columns rows] in Hc, Hr. subst cols1 rows1.
  assert (E := second_loop_table (rows stats_df)
             (map fst (ANALYSIS_FUNCTIONS literal_eval))
             ["year"; "team"] (carried (columns stats_df))
             (fun r => map (fun entry : string * (Series -> result bool) =>
                              raw_answer
                                (snd entry (row_series (columns stats_df) r)))
                           (ANALYSIS_FUNCTIONS literal_eval))
             (registry_names_distinct literal_eval)
             (fun r => eq_refl)
             (fun r => eq_trans (length_map _ _) (eq_sym (length_map _ _)))).
  cbn [app] in E, H2. rewrite E in H2.
  injection H2 as <-. reflexivity.
Qed.

(** X12.  The table of the driver.  When the driver returns, the columns are
    year, team and the twelve question names in the order of the registry;
    there is one row per input row, in the same order, holding the year and
    the team of the input row and then, for each question, Yes when its
    predicate is true of the row and No when it is false. *)
Theorem analyze_teams_table :
  forall stats_df analysis_df : DataFrame,
    analyze_teams literal_eval stats_df = Ok analysis_df ->
    columns analysis_df
      = "year" :: "team" :: map fst (ANALYSIS_FUNCTIONS literal_eval)
    /\ rows analysis_df
       = map (analysis_row literal_eval (columns stats_df)) (rows stats_df)
    /\ Forall (fun r =>
                 Forall (fun entry : string * (Series -> result bool) =>
                           exists b,
                             snd entry (row_series (columns stats_df) r) = Ok b
                             /\ answer_text
                                  (snd entry (row_series (columns stats_df) r))
                                = VStr (if b : bool then "Yes" else "No"))
                        (ANALYSIS_FUNCTIONS literal_eval))
              (rows stats_df).
Proof.
  intros stats_df analysis_df H.
  destruct (analyze_teams_ok_inv _ _ H) as (_ & _ & Hno & ->).
  split; [reflexivity|]. split; [reflexivity|].
  unfold no_predicate_raises in Hno.
  rewrite Forall_forall. intros r Hr. rewrite Forall_forall. intros entry He.
  rewrite Forall_forall in Hno. specialize (Hno entry He).
  rewrite Forall_forall in Hno. destruct (Hno r Hr) as [b Hb].
  exists b. rewrite Hb. split; [reflexivity|]. now destruct b.
Qed.


End MoreDriverProperties.

(** ** Concrete runs *)

Example sample_roster_parses :
  parsed_roster Ast.literal_eval sample_row = Ok (VList sample_players)
  /\ List.length sample_players = 5%nat
  /\ forallb is_record sample_players = true.
Proof. vm_compute. auto. Qed.

Example sample_row_answers :
  map (fun entry : string * (Series -> result bool) => snd entry sample_row)
      (ANALYSIS_FUNCTIONS Ast.literal_eval)
  = [ Ok true; Ok false; Ok true; Ok false; Ok false; Ok false; Ok false;
      Ok false; Ok true; Ok true; Ok true; Ok true ].
Proof. vm_compute. reflexivity. Qed.

(** Three upperclassmen against two lowerclassmen, and two against three. *)
Example experienced_core_by_majority :
  has_experienced_core Ast.literal_eval
    (roster_row (map player_of_class ["SR"; "SR"; "FR"; "FR"; "JR"]))
  = Ok true
  /\ has_experienced_core Ast.literal_eval
       (roster_row (map player_of_class ["FR"; "FR"; "FR"; "JR"; "JR"]))
     = Ok false.
Proof. vm_compute. auto. Qed.

(** Recruit rankings 37, 82 and 5 are within the first hundred. *)
Example top_recruits_by_leading_number :
  has_top_recruits Ast.literal_eval
    (roster_row (map player_of_rsci ["37 (2021)"; "82"; "150"; ""; "5"]))
  = Ok true.
Proof. vm_compute. reflexivity. Qed.

(** A row without any rank field and with an empty roster answers no to
    all twelve questions. *)
Example bare_row_answers_no :
  Forall (fun entry : string * (Series -> result bool) =>
            snd entry [("year", VInt 2024); ("team", VStr "Duke");
                       ("roster", VStr "[]")] = Ok false)
         (ANALYSIS_FUNCTIONS Ast.literal_eval).
Proof. repeat constructor. Qed.

(** Heights 6-8, 6-9, 7-0, 5-9, 6-1: three entries of 78 inches or more. *)
Example has_size_three_tall :
  has_size Ast.literal_eval
    (roster_row (map player_of_height ["6-8"; "6-9"; "7-0"; "5-9"; "6-1"]))
  = Ok true.
Proof. vm_compute. reflexivity. Qed.

(** A height that does not split is skipped and the other four are still
    counted. *)
Example has_size_skips_unreadable_height :
  has_size Ast.literal_eval
    (roster_row (map player_of_height ["N/A"; "6-9"; "7-0"; "6-6"; "6-1"]))
  = Ok true
  /\ has_size Ast.literal_eval
       (roster_row (map player_of_height ["N/A"; "6-9"; "7-0"; "6-5"; "6-1"]))
     = Ok false.
Proof. vm_compute. auto. Qed.

Example scoring_guard_16_2 :
  is_scoring_guard (player_with "PG" "16.2 Pts, 3 Ast") = true
  /\ is_scoring_guard (player_with "PG" "14.9 Pts") = false
  /\ is_scoring_guard (player_with "PG" "15.0 Pts") = false
  /\ is_scoring_guard (player_with "PG" "about 20 Pts") = false.
Proof. vm_compute. auto. Qed.

(** Position texts that merely contain a guard code do not count. *)
Example other_positions_are_no_guards :
  let others := [ player_with "F" "9.0 Pts"; player_with "C" "8.0 Pts";
                  player_with "F" "7.0 Pts" ] in
  has_scoring_guard Ast.literal_eval
    (roster_row (player_with "G/F" "30.0 Pts" :: player_with "Guard" "28.5 Pts"
                 :: others)) = Ok false
  /\ has_scoring_guard Ast.literal_eval
       (roster_row (player_with "G" "30.0 Pts" :: player_with "Guard" "28.5 Pts"
                    :: others)) = Ok true.
Proof. vm_compute. auto. Qed.

(** Ranks that no ranking hands out still pass the threshold. *)
Example ranks_out_of_range_pass :
  is_good_scoring_team [("PTS Rank", VStr "0")] = Ok true
  /\ is_good_scoring_team [("PTS Rank", VStr "-5")] = Ok true
  /\ is_good_scoring_team [("PTS Rank", VStr " 7 ")] = Ok true
  /\ good_defense [("Opponent PTS Rank", VStr "-5")] = Ok true.
Proof. vm_compute. auto. Qed.

(** Four well-formed entries are not enough, whatever they hold. *)
Example four_entries_answer_no :
  Forall (fun pred : Series -> result bool =>
            pred (roster_row (firstn 4 sample_players)) = Ok false)
         (roster_predicates Ast.literal_eval).
Proof. repeat constructor. Qed.

(** ** Where the code leaves the specification *)

(** C2, counterexample.  The literal 5 is not a list of records, and the
    parser returns the integer it denotes, not the empty sequence. *)
Lemma parse_roster_keeps_wrong_shape :
  Ast.literal_eval "5" = Ok (VInt 5)
  /\ is_record_list (VInt 5) = false
  /\ parse_roster Ast.literal_eval (VStr "5") = Ok (VInt 5)
  /\ parse_roster Ast.literal_eval (VStr "5") <> Ok (VList []).
Proof. repeat split. discriminate. Qed.

(** C1, at the failing inputs.  A roster whose literal denotes the integer
    5, and a roster cell left empty in the table (read back as NaN), both
    get past [not roster] and make [len] raise [TypeError], which none of
    the four roster predicates catches. *)
Theorem roster_predicates_raise_type_error :
  Forall (fun pred : Series -> result bool =>
            pred [("year", VInt 2024); ("team", VStr "Duke");
                  ("roster", VStr "5")] = Raise TypeError)
         (roster_predicates Ast.literal_eval)
  /\ forall literal_eval : string -> result value,
       Forall (fun pred : Series -> result bool =>
                 pred [("year", VInt 2024); ("team", VStr "Duke");
                       ("roster", nan)] = Raise TypeError)
              (roster_predicates literal_eval).
Proof. split; [|intros literal_eval]; repeat constructor. Qed.

(** The rank predicates have gaps of the same kind: a rank cell that reads
    as an infinite float makes [int()] raise [OverflowError], and a [None]
    makes it raise [TypeError]; neither is caught. *)
Example rank_predicate_raises :
  is_good_scoring_team [("PTS Rank", VFloat (S754_infinity false))]
  = Raise OverflowError
  /\ is_good_scoring_team [("PTS Rank", VNone)] = Raise TypeError
  /\ is_good_scoring_team [("PTS Rank", nan)] = Ok false.
Proof. repeat split. Qed.

(** C3, at the failing input.  One row with an empty roster cell: the
    exception of the first roster predicate ends the driver, and no output
    table is produced at all. *)
Theorem analyze_teams_raises_on_empty_roster_cell :
  forall literal_eval : string -> result value,
    analyze_teams literal_eval
      {| columns := ["year"; "team"; "PTS Rank"; "roster"];
         rows := [[VInt 2024; VStr "Duke"; VStr "12"; nan]] |}
    = Raise TypeError.
Proof. intros literal_eval. reflexivity. Qed.

(** ** Witnesses *)




Lemma parse_roster_outcomes_witness :
  parse_roster Ast.literal_eval nan = Ok nan
  /\ parse_roster Ast.literal_eval (VStr "[5, 'a']")
     = Ok (VList [VInt 5; VStr "a"])
  /\ parse_roster Ast.literal_eval (VStr "[{'class': 'SR'") = Ok (VList [])
  /\ parse_roster Ast.literal_eval (VStr "roster") = Ok (VList []).
Proof.
  destruct (parse_roster_outcomes Ast.literal_eval) as (Hpass & Hok & Hfail).
  refine (conj _ (conj _ (conj _ _))).
  - apply Hpass. reflexivity.
  - apply Hok. reflexivity.
  - apply (Hfail _ SyntaxError); [reflexivity | now right].
  - apply (Hfail _ ValueError); [reflexivity | now left].
Defined.

Lemma roster_predicates_depend_on_first_five_witness :
  In (has_size Ast.literal_eval) (roster_predicates Ast.literal_eval)
  /\ has_size Ast.literal_eval (roster_row (firstn 4 sample_players))
     = Ok false
  /\ has_size Ast.literal_eval sample_row
     = has_size Ast.literal_eval
         (roster_row (sample_players ++ [VInt 7; VNone])%list).
Proof.
  assert (Hin : In (has_size Ast.literal_eval)
                   (roster_predicates Ast.literal_eval))
    by (simpl; auto 10).
  destruct (roster_predicates_depend_on_first_five Ast.literal_eval _ Hin)
    as [Hshort Hfive].
  refine (conj Hin (conj _ _)).
  - apply (Hshort _ (VList (firstn 4 sample_players)) 4);
      [reflexivity | reflexivity | lia].
  - apply (Hfive _ _ sample_players (sample_players ++ [VInt 7; VNone])%list);
      reflexivity.
Defined.




Lemma analyze_teams_returns_witness :
  exists analysis_df,
    analyze_teams Ast.literal_eval
      {| columns := map fst sample_row; rows := [map snd sample_row] |}
    = Ok analysis_df
    /\ keeps_rows {| columns := map fst sample_row;
                     rows := [map snd sample_row] |} analysis_df.
Proof.
  apply analyze_teams_returns; [reflexivity | reflexivity |].
  repeat constructor; eexists; vm_compute; reflexivity.
Defined.

(** ** Witnesses of the further properties *)

Lemma clean_rank_text_keeps_the_number_witness :
  all_digits "12" = true /\ "12" <> ""
  /\ clean_rank_text "12" = "12" /\ clean_rank_text "12th" = "12".
Proof.
  assert (Hne : "12" <> "") by discriminate.
  destruct (clean_rank_text_keeps_the_number "12" eq_refl Hne) as [H1 H2].
  exact (conj eq_refl (conj Hne (conj H1 (H2 "t"%char "h"%char eq_refl)))).
Defined.

Lemma cleaned_ordinal_is_read_as_its_number_witness :
  In ("PTS Rank", is_good_scoring_team) top_50_predicates
  /\ all_digits "51" = true /\ "51" <> ""
  /\ str_len "51" <= int_max_str_digits
  /\ is_ordinal_suffix "s" "t" = true
  /\ is_good_scoring_team [("PTS Rank", VStr (clean_rank_text "51st"))]
     = Ok false.
Proof.
  assert (Hin : In ("PTS Rank", is_good_scoring_team) top_50_predicates)
    by (simpl; auto).
  assert (Hne : "51" <> "") by discriminate.
  assert (Hlen : str_len "51" <= int_max_str_digits) by (vm_compute; discriminate).
  refine (conj Hin (conj eq_refl (conj Hne (conj Hlen (conj eq_refl _))))).
  exact (cleaned_ordinal_is_read_as_its_number _ _ Hin
           [("PTS Rank", VStr (clean_rank_text "51st"))] "51" "s" "t"
           eq_refl Hne Hlen eq_refl eq_refl).
Defined.

Lemma clean_rank_text_keeps_digits_witness :
  digits_of (clean_rank_text " 3rd of 351 ") = "3351"
  /\ clean_rank_text " N/A " = "N/A".
Proof.
  refine (conj _ _).
  - exact (proj1 (clean_rank_text_keeps_digits " 3rd of 351 ")).
  - exact (proj2 (clean_rank_text_keeps_digits " N/A ") eq_refl).
Defined.

Lemma get_recent_final_four_teams_raises_without_teams_witness :
  get_recent_final_four_teams (fun _ => Ok []) = Raise KeyError.
Proof.
  apply get_recent_final_four_teams_raises_without_teams.
  intros year _. reflexivity.
Defined.

Lemma get_recent_final_four_teams_table_witness :
  get_recent_final_four_teams (fun year => Ok (sample_teams year))
  = Ok {| columns := ["year"; "team"; "PTS Rank"; "roster"];
          rows := [ [VInt 2024; VStr "Duke"; VStr "12"; nan];
                    [VInt 2024; VStr "UNC"; nan; VList []] ] |}.
Proof.
  exact (get_recent_final_four_teams_table
           (fun year => Ok (sample_teams year)) sample_teams
           (fun year _ => eq_refl) eq_refl eq_refl).
Defined.

Lemma has_experienced_core_compares_classes_witness :
  parsed_roster Ast.literal_eval (roster_row class_players)
    = Ok (VList class_players)
  /\ (5 <= List.length class_players)%nat
  /\ forallb is_dict (firstn 5 class_players) = true
  /\ has_experienced_core Ast.literal_eval (roster_row class_players)
     = Ok false.
Proof.
  assert (Hlen : (5 <= List.length class_players)%nat) by (simpl; lia).
  refine (conj eq_refl (conj Hlen (conj eq_refl _))).
  exact (has_experienced_core_compares_classes Ast.literal_eval
           (roster_row class_players) class_players eq_refl Hlen eq_refl).
Defined.

Lemma has_top_recruits_counts_leading_numbers_witness :
  parsed_roster Ast.literal_eval (roster_row rsci_players)
    = Ok (VList rsci_players)
  /\ (5 <= List.length rsci_players)%nat
  /\ forallb (has_short_text "rsci_rank") (firstn 5 rsci_players) = true
  /\ has_top_recruits Ast.literal_eval (roster_row rsci_players) = Ok true.
Proof.
  assert (Hlen : (5 <= List.length rsci_players)%nat) by (simpl; lia).
  refine (conj eq_refl (conj Hlen (conj eq_refl _))).
  exact (has_top_recruits_counts_leading_numbers Ast.literal_eval
           (roster_row rsci_players) rsci_players eq_refl Hlen eq_refl).
Defined.



Lemma roster_predicates_false_without_roster_witness :
  In (has_top_recruits Ast.literal_eval) (roster_predicates Ast.literal_eval)
  /\ has_top_recruits Ast.literal_eval [("year", VInt 2024)] = Ok false
  /\ has_top_recruits Ast.literal_eval [("roster", VStr "[{'class': ")]
     = Ok false
  /\ has_top_recruits Ast.literal_eval [("roster", VStr "[]")] = Ok false.
Proof.
  assert (Hin : In (has_top_recruits Ast.literal_eval)
                   (roster_predicates Ast.literal_eval))
    by (simpl; auto).
  pose proof (roster_predicates_false_without_roster Ast.literal_eval _ Hin)
    as H.
  refine (conj Hin (conj _ (conj _ _))).
  - destruct (H [("year", VInt 2024)]) as (Habsent & _). now apply Habsent.
  - destruct (H [("roster", VStr "[{'class': ")]) as (_ & Hbad & _).
    apply (Hbad "[{'class': " SyntaxError); [reflexivity | reflexivity |].
    now right.
  - destruct (H [("roster", VStr "[]")]) as (_ & _ & Hempty).
    now apply (Hempty (VList [])).
Defined.

Lemma rank_predicates_read_numbers_like_texts_witness :
  In ("TOV Rank", protects_basketball)
     (("TOV Rank", protects_basketball) :: top_50_predicates)
  /\ protects_basketball [("TOV Rank", VStr "312")]
     = protects_basketball [("TOV Rank", VInt 312)]
  /\ protects_basketball [("TOV Rank", nan)] = Ok false.
Proof.
  assert (Hin : In ("TOV Rank", protects_basketball)
                   (("TOV Rank", protects_basketball) :: top_50_predicates))
    by now left.
  assert (Hne : "312" <> "") by discriminate.
  assert (Hlen : str_len "312" <= int_max_str_digits)
    by (vm_compute; discriminate).
  destruct (rank_predicates_read_numbers_like_texts _ _ Hin) as [Hsame Hnan].
  refine (conj Hin (conj _ _)).
  - exact (Hsame [("TOV Rank", VStr "312")] [("TOV Rank", VInt 312)] "312"
             eq_refl Hne Hlen eq_refl eq_refl).
  - exact (Hnan [("TOV Rank", nan)] eq_refl).
Defined.

Lemma analyze_teams_table_witness :
  analyze_teams Ast.literal_eval sample_table = Ok sample_analysis
  /\ columns sample_analysis
     = "year" :: "team" :: map fst (ANALYSIS_FUNCTIONS Ast.literal_eval)
  /\ rows sample_analysis
     = map (analysis_row Ast.literal_eval (columns sample_table))
           (rows sample_table).
Proof.
  assert (H : analyze_teams Ast.literal_eval sample_table = Ok sample_analysis)
    by (vm_compute; reflexivity).
  destruct (analyze_teams_table Ast.literal_eval _ _ H) as (Hc & Hr & _).
  exact (conj H (conj Hc Hr)).
Defined.

